(** * llvm-cov gcov: companion-file resolution and the reporting pipeline

    A shallow embedding of [llvm/tools/llvm-cov/gcov.cpp].  The file is a
    driver: it computes the names of the notes file (.gcno) and of the data
    file (.gcda) of a source file, loads both, has the GCOV library read
    them and hands the result to the renderer.  Everything it calls lives in
    other translation units (llvm/Support and llvm/ProfileData); those
    entry points are the fields of three interfaces below, and the functions
    of gcov.cpp are written over them, one definition per C++ function. *)

From Stdlib Require Import String Ascii List ZArith Bool Lia.
From Stdlib Require Import Strings.Byte.
Import ListNotations.
Local Open Scope list_scope.
Local Open Scope string_scope.

Set Implicit Arguments.

(** ** Strings *)

(** [StringRef::empty], [std::string::empty], [SmallString::empty]. *)
Definition empty (s : string) : bool :=
  match s with
  | EmptyString => true
  | String _ _ => false
  end.

(** The character written by ["\n"]. *)
Definition endl : string := String (ascii_of_nat 10) EmptyString.

(** ** Error codes and [ErrorOr] *)

Inductive error_category : Type :=
  | generic_category
  | system_category.

(** [std::error_code]: an integer and the category that interprets it. *)
Record error_code : Type := mk_error_code {
  value : Z;
  category : error_category
}.

(** [std::error_code::operator bool]: a code is an error when its value is
    not zero. *)
Definition error_code_bool (EC : error_code) : bool := negb (value EC =? 0)%Z.

(** The default-constructed [std::error_code()]. *)
Definition no_error : error_code := mk_error_code 0 system_category.

(** Conditions of [std::errc]; the tool compares against the first. *)
Inductive errc : Type :=
  | no_such_file_or_directory
  | permission_denied
  | is_a_directory
  | io_error.

(** [llvm::ErrorOr<T>]: either a value or the error code of a failed
    operation.  A failed operation carries a code that tests true. *)
Inductive ErrorOr (T : Type) : Type :=
  | EO_value (v : T)
  | EO_error (EC : error_code) (is_error : error_code_bool EC = true).

Arguments EO_value {T} v.
Arguments EO_error {T} EC is_error.

(** [ErrorOr::getError]. *)
Definition getError {T : Type} (E : ErrorOr T) : error_code :=
  match E with
  | EO_value _ => no_error
  | EO_error EC _ => EC
  end.

(** ** Data handed to the collaborators *)

(** [llvm::MemoryBuffer]: the bytes of a loaded file. *)
Definition MemoryBuffer : Type := list byte.

(** [GCOV::Options], fields in declaration order. *)
Record GCOV_Options : Type := mk_Options {
  opt_AllBlocks : bool;
  opt_BranchInfo : bool;
  opt_BranchCount : bool;
  opt_FuncCoverage : bool;
  opt_PreservePaths : bool;
  opt_UncondBranch : bool;
  opt_Intermediate : bool;
  opt_LongFileNames : bool;
  opt_Demangle : bool;
  opt_NoOutput : bool;
  opt_RelativeOnly : bool;
  opt_UseStdout : bool;
  opt_HashFilenames : bool;
  opt_SourcePrefix : string
}.

(** ** Interfaces of the code gcov.cpp calls *)

(** [llvm::sys::path].  [append] and [replace_extension] update their first
    argument in place; here they return the updated path. *)
Class PathLib : Type := {
  parent_path : string -> string;
  stem : string -> string;
  append : string -> string -> string;
  replace_extension : string -> string -> string
}.

(** [llvm::GCOVFile] and [llvm::GCOVBuffer].  A read returns its verdict
    and the object it was called on, as the call leaves it. *)
Class GCOVLib : Type := {
  GCOVFile : Type;
  GCOVBuffer : Type;
  GCOVFile_new : GCOVFile;
  GCOVBuffer_new : MemoryBuffer -> GCOVBuffer;
  readGCNO : GCOVFile -> GCOVBuffer -> bool * GCOVFile;
  readGCDAFormat : GCOVBuffer -> bool * GCOVBuffer;
  readGCDA : GCOVFile -> GCOVBuffer -> bool * GCOVFile
}.

(** The machine the tool runs on: the file system and standard input
    ([Sys] is their state), the messages of the error codes, the comparison
    of a code with an [errc] condition, and the effect of the renderer
    [gcovOneInput] on the files.  [getFileOrSTDIN] is
    [MemoryBuffer::getFileOrSTDIN(Filename, IsText, RequiresNullTerminator)]. *)
Class Host (G : GCOVLib) : Type := {
  Sys : Type;
  is_directory : string -> Sys -> bool;
  getFileOrSTDIN :
    string -> bool -> bool -> Sys -> ErrorOr MemoryBuffer * Sys;
  message : error_code -> string;
  equivalent : error_code -> errc -> bool;
  gcovOneInput :
    GCOV_Options -> string -> string -> string -> GCOVFile -> Sys -> Sys
}.

(** ** What a run does, in order *)

(** One entry per call that leaves gcov.cpp and per line written to
    [errs()].  A call is recorded with its arguments; for the methods of
    [GCOVFile] the first argument is the object as it is when called. *)
Inductive Event {G : GCOVLib} : Type :=
  | ev_is_directory (Path : string)
  | ev_getFileOrSTDIN (FileName : string)
  | ev_readGCNO (GF : GCOVFile) (GB : GCOVBuffer)
  | ev_readGCDAFormat (GB : GCOVBuffer)
  | ev_readGCDA (GF : GCOVFile) (GB : GCOVBuffer)
  | ev_errs (Text : string)
  | ev_print (GF : GCOVFile)
  | ev_gcovOneInput (Options : GCOV_Options)
      (SourceFile GCNO GCDA : string) (GF : GCOVFile).

(** ** The monad of the tool: host state in, events out *)

Section Monad.
Context {G : GCOVLib} {H : Host G}.

Definition M (A : Type) : Type := Sys -> A * Sys * list Event.

Definition ret {A : Type} (a : A) : M A := fun s => (a, s, []).

Definition bind {A B : Type} (m : M A) (f : A -> M B) : M B :=
  fun s =>
    let '(a, s1, e1) := m s in
    let '(b, s2, e2) := f a s1 in
    (b, s2, (e1 ++ e2)%list).

(** Record a call that does not change the host. *)
Definition emit (e : Event) : M unit := fun s => (tt, s, [e]).

Definition result {A : Type} (r : A * Sys * list Event) : A := fst (fst r).
Definition host {A : Type} (r : A * Sys * list Event) : Sys := snd (fst r).
Definition events {A : Type} (r : A * Sys * list Event) : list Event := snd r.
End Monad.

Declare Scope gcov_scope.
Delimit Scope gcov_scope with gcov.
Notation "x <- m ;; k" := (bind m (fun x => k))
  (at level 61, m at next level, right associativity) : gcov_scope.
Notation "' p <- m ;; k" := (bind m (fun x => let p := x in k))
  (at level 61, p pattern, m at next level, right associativity) : gcov_scope.
Notation "m ;; k" := (bind m (fun _ => k))
  (at level 61, right associativity) : gcov_scope.
Local Open Scope gcov_scope.

(** ** Path Resolver *)

Section PathResolver.
Context {P : PathLib} {G : GCOVLib} {H : Host G}.

(** [sys::fs::is_directory(Path)], a query of the file system. *)
Definition fs_is_directory (Path : string) : M bool :=
  fun s => (is_directory Path s, s, [ev_is_directory Path]).

(** gcov.cpp:22 *)
Definition createCoverageFileStem (SourceFile ObjectDir : string) : M string :=
  let CoverageFileStem := ObjectDir in
  if empty CoverageFileStem then
    let CoverageFileStem := parent_path SourceFile in
    ret (append CoverageFileStem (stem SourceFile))
  else
    isdir <- fs_is_directory ObjectDir ;;
    if isdir then ret (append CoverageFileStem (stem SourceFile))
    else ret (replace_extension CoverageFileStem "").
End PathResolver.

(** gcov.cpp:40 *)
Definition createInputFileName
    (CoverageFileStem InputGCFileName extensionSuffix : string) : string :=
  if empty InputGCFileName
  then (CoverageFileStem ++ ".gc") ++ extensionSuffix
  else InputGCFileName.


(** ** Artifact Loader, validation and the pipeline *)

Section Pipeline.
Context {P : PathLib} {G : GCOVLib} {H : Host G}.

(** [errs() << ...]: one line on the diagnostic stream. *)
Definition errs (Text : string) : M unit := emit (ev_errs Text).

(** gcov.cpp:48 *)
Definition reportGCOVFileNameError (GCOVFileName : string) (EC : error_code)
    : M unit :=
  errs (GCOVFileName ++ ": " ++ message EC ++ endl).

(** gcov.cpp:53.  [MemoryBuffer::getFileOrSTDIN] may consume standard
    input, so the host it leaves is the one the callee returns. *)
Definition getGCOVFileOrSTDIN (GCOVFileName : string)
    : M (ErrorOr MemoryBuffer) :=
  fun s =>
    let '(B, s1) := getFileOrSTDIN GCOVFileName false false s in
    (B, s1, [ev_getFileOrSTDIN GCOVFileName]).

(** [GF.readGCNO(GB)], [GB.readGCDAFormat()], [GF.readGCDA(GB)],
    [GF.print(errs())] and [gcovOneInput(...)] as actions. *)
Definition GF_readGCNO (GF : GCOVFile) (GB : GCOVBuffer) : M (bool * GCOVFile) :=
  emit (ev_readGCNO GF GB) ;; ret (readGCNO GF GB).

Definition GB_readGCDAFormat (GB : GCOVBuffer) : M (bool * GCOVBuffer) :=
  emit (ev_readGCDAFormat GB) ;; ret (readGCDAFormat GB).

Definition GF_readGCDA (GF : GCOVFile) (GB : GCOVBuffer) : M (bool * GCOVFile) :=
  emit (ev_readGCDA GF GB) ;; ret (readGCDA GF GB).

Definition GF_print (GF : GCOVFile) : M unit := emit (ev_print GF).

Definition call_gcovOneInput (Options : GCOV_Options)
    (SourceFile GCNO GCDA : string) (GF : GCOVFile) : M unit :=
  fun s =>
    (tt, gcovOneInput Options SourceFile GCNO GCDA GF s,
     [ev_gcovOneInput Options SourceFile GCNO GCDA GF]).

(** gcov.cpp:61.  The buffer is known to hold a value when this is called;
    [GF] is passed by reference and comes back as the reader left it. *)
Definition validateGCNOFile (GCNO_Buff : MemoryBuffer) (GF : GCOVFile)
    : M (bool * GCOVFile) :=
  let GCNO_GB := GCOVBuffer_new GCNO_Buff in
  '(ok, GF) <- GF_readGCNO GF GCNO_GB ;;
  if negb ok then
    errs ("Invalid .gcno File!" ++ endl) ;;
    ret (false, GF)
  else ret (true, GF).

(** gcov.cpp:72 *)
Definition validateGCDAFile (GF : GCOVFile) (GCDA : string)
    (GCDA_Buff : MemoryBuffer) : M GCOVFile :=
  let gcda_buf := GCOVBuffer_new GCDA_Buff in
  '(ok, gcda_buf) <- GB_readGCDAFormat gcda_buf ;;
  if negb ok then
    errs (GCDA ++ ":not a gcov data file" ++ endl) ;;
    ret GF
  else
    '(ok, GF) <- GF_readGCDA GF gcda_buf ;;
    if negb ok then
      errs ("Invalid .gcda File!" ++ endl) ;;
      ret GF
    else ret GF.

(** gcov.cpp:114-117, the statements every path that does not return early
    ends with. *)
Definition dumpAndReport (DumpGCOV : bool) (Options : GCOV_Options)
    (SourceFile GCNO GCDA : string) (GF : GCOVFile) : M unit :=
  (if DumpGCOV then GF_print GF else ret tt) ;;
  call_gcovOneInput Options SourceFile GCNO GCDA GF.

(** gcov.cpp:82.  Each [return;] of the C++ is a branch that ends here. *)
Definition reportCoverage (SourceFile ObjectDir InputGCNO InputGCDA : string)
    (DumpGCOV : bool) (Options : GCOV_Options) : M unit :=
  let GF := GCOVFile_new in
  CoverageFileStem <- createCoverageFileStem SourceFile ObjectDir ;;
  let GCNO := createInputFileName CoverageFileStem InputGCNO "no" in
  GCNO_Buff <- getGCOVFileOrSTDIN GCNO ;;
  match GCNO_Buff with
  | EO_error EC _ => reportGCOVFileNameError GCNO EC
  | EO_value GCNO_Buff =>
    '(ok, GF) <- validateGCNOFile GCNO_Buff GF ;;
    if negb ok then ret tt
    else
      let GCDA := createInputFileName CoverageFileStem InputGCDA "da" in
      GCDA_Buff <- getGCOVFileOrSTDIN GCDA ;;
      match GCDA_Buff with
      | EO_error EC _ =>
        if negb (equivalent EC no_such_file_or_directory) then
          reportGCOVFileNameError GCDA EC
        else
          let GCDA := "-" in
          dumpAndReport DumpGCOV Options SourceFile GCNO GCDA GF
      | EO_value GCDA_Buff =>
        GF <- validateGCDAFile GF GCDA GCDA_Buff ;;
        dumpAndReport DumpGCOV Options SourceFile GCNO GCDA GF
      end
  end.

(** ** Driver *)

(** The values of the command-line options once
    [cl::ParseCommandLineOptions] has returned. *)
Record CommandLine : Type := mk_CommandLine {
  SourceFiles : list string;
  AllBlocks : bool;
  BranchProb : bool;
  BranchCount : bool;
  LongNames : bool;
  FuncSummary : bool;
  Intermediate : bool;
  Demangle : bool;
  NoOutput : bool;
  ObjectDir : string;
  PreservePaths : bool;
  RelativeOnly : bool;
  SourcePrefix : string;
  UseStdout : bool;
  UncondBranch : bool;
  HashFilenames : bool;
  DumpGCOV : bool;
  InputGCNO : string;
  InputGCDA : string
}.

(** A range-based [for] over a list. *)
Fixpoint for_each {A : Type} (l : list A) (body : A -> M unit) : M unit :=
  match l with
  | [] => ret tt
  | x :: rest => body x ;; for_each rest body
  end.

(** gcov.cpp:206, the constructor call. *)
Definition Options_of (cl : CommandLine) : GCOV_Options :=
  mk_Options (AllBlocks cl) (BranchProb cl) (BranchCount cl) (FuncSummary cl)
    (PreservePaths cl) (UncondBranch cl) (Intermediate cl) (LongNames cl)
    (Demangle cl) (NoOutput cl) (RelativeOnly cl) (UseStdout cl)
    (HashFilenames cl) (SourcePrefix cl).

(** gcov.cpp:120, from the point the options are parsed. *)
Definition gcovMain (cl : CommandLine) : M Z :=
  let Options := Options_of cl in
  for_each (SourceFiles cl) (fun SourceFile =>
    reportCoverage SourceFile (ObjectDir cl) (InputGCNO cl) (InputGCDA cl)
      (DumpGCOV cl) Options) ;;
  ret 0%Z.

End Pipeline.

(** ** Reading a run *)

Section Reading.
Context {G : GCOVLib}.

(** The lines gcov.cpp itself writes to [errs()].  The graph that
    [GF.print(errs())] dumps under --dump is the event [ev_print], and what
    a collaborator prints while it runs belongs to its call. *)
Definition diagnostics (es : list Event) : list string :=
  flat_map (fun e => match e with ev_errs t => [t] | _ => [] end) es.

(** The names handed to the loader. *)
Definition loads (es : list Event) : list string :=
  flat_map (fun e => match e with ev_getFileOrSTDIN n => [n] | _ => [] end) es.

(** The calls of the data-format reader, header check included. *)
Definition data_reads (es : list Event) : list Event :=
  filter (fun e => match e with
                   | ev_readGCDAFormat _ | ev_readGCDA _ _ => true
                   | _ => false
                   end) es.

(** The calls of the notes-format reader. *)
Definition notes_reads (es : list Event) : list Event :=
  filter (fun e => match e with ev_readGCNO _ _ => true | _ => false end) es.

(** The calls of the renderer: source file, notes name, data name, graph. *)
Definition renders (es : list Event)
    : list (GCOV_Options * string * string * string * GCOVFile) :=
  flat_map (fun e => match e with
                     | ev_gcovOneInput Options SourceFile GCNO GCDA GF =>
                       [(Options, SourceFile, GCNO, GCDA, GF)]
                     | _ => []
                     end) es.

(** The notes reader is called on a graph that is new. *)
Definition reads_into_new_graph (e : Event) : Prop :=
  match e with
  | ev_readGCNO GF _ => GF = GCOVFile_new
  | _ => True
  end.

(** The graph a [GCOVFile] method or the renderer is given must be the one
    the previous call on it left: [graph_flow cur es] follows one graph
    through [es], starting from [cur]. *)
Fixpoint graph_flow (cur : GCOVFile) (es : list Event) : Prop :=
  match es with
  | [] => True
  | ev_readGCNO GF GB :: es' =>
      GF = cur /\ graph_flow (snd (readGCNO GF GB)) es'
  | ev_readGCDA GF GB :: es' =>
      GF = cur /\ graph_flow (snd (readGCDA GF GB)) es'
  | ev_print GF :: es' => GF = cur /\ graph_flow cur es'
  | ev_gcovOneInput _ _ _ _ GF :: es' => GF = cur /\ graph_flow cur es'
  | _ :: es' => graph_flow cur es'
  end.
End Reading.

Section Names.
Context {P : PathLib} {G : GCOVLib} {H : Host G}.

(** The stem, the notes-file name and the data-file name a run computes
    from its arguments on host [s]. *)
Definition stemOf (SourceFile ObjectDir : string) (s : Sys) : string :=
  result (createCoverageFileStem SourceFile ObjectDir s).

Definition stemEvents (SourceFile ObjectDir : string) (s : Sys) : list Event :=
  events (createCoverageFileStem SourceFile ObjectDir s).

Definition notesName (SourceFile ObjectDir InputGCNO : string) (s : Sys) : string :=
  createInputFileName (stemOf SourceFile ObjectDir s) InputGCNO "no".

Definition dataName (SourceFile ObjectDir InputGCDA : string) (s : Sys) : string :=
  createInputFileName (stemOf SourceFile ObjectDir s) InputGCDA "da".

(** One pipeline run of the driver's loop. *)
Definition runOne (cl : CommandLine) (SourceFile : string) : M unit :=
  reportCoverage SourceFile (ObjectDir cl) (InputGCNO cl) (InputGCDA cl)
    (DumpGCOV cl) (Options_of cl).

(** Every entry of the list, in order, gets one pipeline run, which starts
    on the host the run before it left, whatever that run did; the events
    are those of the runs one after the other. *)
Inductive Processed (cl : CommandLine)
    : list string -> Sys -> Sys -> list (list Event) -> Prop :=
  | Processed_nil (s : Sys) : Processed cl [] s s []
  | Processed_cons (x : string) (xs : list string) (s s1 s2 : Sys)
      (e : list Event) (es : list (list Event)) :
      runOne cl x s = (tt, s1, e) ->
      Processed cl xs s1 s2 es ->
      Processed cl (x :: xs) s s2 (e :: es).
End Names.

(** ** More readings of a run *)

Section MoreReading.
Context {G : GCOVLib}.

(** The graphs dumped by [GF.print(errs())]. *)
Definition prints (es : list Event) : list GCOVFile :=
  flat_map (fun e => match e with ev_print GF => [GF] | _ => [] end) es.

(** The source files the renderer was called for. *)
Definition rendered_sources (es : list Event) : list string :=
  map (fun r => match r with (_, SourceFile, _, _, _) => SourceFile end)
    (renders es).

(** The events of a run other than the dump of --dump. *)
Definition without_prints (es : list Event) : list Event :=
  filter (fun e => match e with ev_print _ => false | _ => true end) es.
(** The graphs the renderer was given. *)
Definition rendered_graphs (es : list Event) : list GCOVFile :=
  map (fun r => match r with (_, _, _, _, GF) => GF end) (renders es).

(** Everything gcov.cpp itself sends to [errs()], in order: a line written
    with [<<], or the graph handed to [GF.print(errs())]. *)
Definition errs_writes (es : list Event) : list (string + GCOVFile) :=
  flat_map (fun e => match e with
                     | ev_errs t => [inl t]
                     | ev_print GF => [inr GF]
                     | _ => []
                     end) es.
End MoreReading.

Section HostReading.
Context {G : GCOVLib} {H : Host G}.

(** The host after the loader was called for [names], one after the
    other. *)
Definition after_loads (names : list string) (s : Sys) : Sys :=
  fold_left (fun s' name => snd (getFileOrSTDIN name false false s')) names s.

(** The host after the renderer calls [rs], one after the other. *)
Definition after_renders
    (rs : list (GCOV_Options * string * string * string * GCOVFile))
    (s : Sys) : Sys :=
  fold_left (fun s' r => match r with
                         | (Options, SourceFile, GCNO, GCDA, GF) =>
                           gcovOneInput Options SourceFile GCNO GCDA GF s'
                         end) rs s.

(** An event other than a question to the file system about a directory. *)
Definition not_a_directory_query (e : Event) : Prop :=
  match e with
  | ev_is_directory _ => False
  | _ => True
  end.
End HostReading.

(** ** The graph of a run, as it has to be *)

Section NewGraph.
Context {P : PathLib} {G : GCOVLib} {H : Host G}.

(** The call of the notes reader a run on host [s] has to make: none when
    its notes file does not load, and otherwise one call, on a new
    [GCOVFile], with the buffer of that notes file. *)
Definition notes_read_on_new_graph
    (SourceFile ObjectDir InputGCNO : string) (s : Sys) : list Event :=
  match fst (getFileOrSTDIN (notesName SourceFile ObjectDir InputGCNO s)
               false false s) with
  | EO_value notes => [ev_readGCNO GCOVFile_new (GCOVBuffer_new notes)]
  | EO_error _ _ => []
  end.

(** The graph a run on host [s] has to hand to the renderer when it gets
    that far: a new [GCOVFile], read into from the notes file of this run
    and then, when the data file loads and has the header, from the data
    file of this run.  Nothing else goes into it. *)
Definition graph_built
    (SourceFile ObjectDir InputGCNO InputGCDA : string) (s : Sys)
    : option GCOVFile :=
  let '(notes_file, s1) :=
    getFileOrSTDIN (notesName SourceFile ObjectDir InputGCNO s) false false s in
  match notes_file with
  | EO_error _ _ => None
  | EO_value notes =>
    let '(accepted, GF1) := readGCNO GCOVFile_new (GCOVBuffer_new notes) in
    if accepted then
      match fst (getFileOrSTDIN (dataName SourceFile ObjectDir InputGCDA s)
                   false false s1) with
      | EO_error EC _ =>
        if equivalent EC no_such_file_or_directory then Some GF1 else None
      | EO_value data =>
        let '(header, gcda_buf) := readGCDAFormat (GCOVBuffer_new data) in
        if header then Some (snd (readGCDA GF1 gcda_buf)) else Some GF1
      end
    else None
  end.

Definition graph_to_render
    (SourceFile ObjectDir InputGCNO InputGCDA : string) (s : Sys)
    : list GCOVFile :=
  match graph_built SourceFile ObjectDir InputGCNO InputGCDA s with
  | Some GF => [GF]
  | None => []
  end.

(** The same for the source files of a command line, each on the host the
    runs before it left. *)
Fixpoint notes_reads_on_new_graphs (cl : CommandLine) (xs : list string)
    (s : Sys) : list Event :=
  match xs with
  | [] => []
  | x :: rest =>
    (notes_read_on_new_graph x (ObjectDir cl) (InputGCNO cl) s ++
     notes_reads_on_new_graphs cl rest (host (runOne cl x s)))%list
  end.

Fixpoint graphs_to_render (cl : CommandLine) (xs : list string) (s : Sys)
    : list GCOVFile :=
  match xs with
  | [] => []
  | x :: rest =>
    (graph_to_render x (ObjectDir cl) (InputGCNO cl) (InputGCDA cl) s ++
     graphs_to_render cl rest (host (runOne cl x s)))%list
  end.
End NewGraph.

(** [subseq l1 l2]: [l1] is [l2] with some elements left out, the others in
    the order of [l2]. *)
Inductive subseq {A : Type} : list A -> list A -> Prop :=
  | subseq_nil : subseq [] []
  | subseq_skip (x : A) (l1 l2 : list A) :
      subseq l1 l2 -> subseq l1 (x :: l2)
  | subseq_keep (x : A) (l1 l2 : list A) :
      subseq l1 l2 -> subseq (x :: l1) (x :: l2).

(** ** A small host to run the pipeline on *)

Module Sample.

Definition slash : ascii := "/"%char.
Definition dot : ascii := "."%char.

(** The characters after the last separator, and those before it. *)
Fixpoint split_last (sep : ascii) (cs : list ascii)
    : option (list ascii) * list ascii :=
  match cs with
  | [] => (None, [])
  | c :: rest =>
    match split_last sep rest with
    | (Some before, after) => (Some (c :: before), after)
    | (None, after) =>
      if Ascii.eqb c sep then (Some [], after) else (None, c :: after)
    end
  end.

Definition filename (p : string) : string :=
  string_of_list_ascii (snd (split_last slash (list_ascii_of_string p))).

Definition posix_parent_path (p : string) : string :=
  match fst (split_last slash (list_ascii_of_string p)) with
  | None => ""
  | Some [] => "/"
  | Some before => string_of_list_ascii before
  end.

Definition drop_extension (name : string) : string :=
  match split_last dot (list_ascii_of_string name) with
  | (Some before, _) =>
    if (String.eqb name ".") || (String.eqb name "..") then name
    else string_of_list_ascii before
  | (None, _) => name
  end.

Definition posix_stem (p : string) : string := drop_extension (filename p).

Definition ends_with_slash (p : string) : bool :=
  match rev (list_ascii_of_string p) with
  | c :: _ => Ascii.eqb c slash
  | [] => false
  end.

Definition posix_append (path component : string) : string :=
  if empty path then component
  else if empty component then path
  else if ends_with_slash path then path ++ component
  else path ++ "/" ++ component.

Definition posix_replace_extension (path extension : string) : string :=
  let name := filename path in
  let dir := fst (split_last slash (list_ascii_of_string path)) in
  let base :=
    match split_last dot (list_ascii_of_string name) with
    | (Some before, _) => string_of_list_ascii before
    | (None, _) => name
    end in
  let ext :=
    match extension with
    | EmptyString => ""
    | String c _ =>
      if Ascii.eqb c dot then extension else "." ++ extension
    end in
  match dir with
  | None => base ++ ext
  | Some before => string_of_list_ascii before ++ "/" ++ base ++ ext
  end.

#[export] Instance posix : PathLib := {
  parent_path := posix_parent_path;
  stem := posix_stem;
  append := posix_append;
  replace_extension := posix_replace_extension
}.

(** A reader that accepts a buffer by its four-byte magic: the graph is the
    pair of what was read from the notes and from the data. *)
Fixpoint strip_prefix (magic bytes : list byte) : option (list byte) :=
  match magic, bytes with
  | [], _ => Some bytes
  | m :: magic', b :: bytes' =>
    if Byte.eqb m b then strip_prefix magic' bytes' else None
  | _ :: _, [] => None
  end.

Definition graph : Type := list byte * list byte.

Definition sample_readGCNO (GF : graph) (GB : list byte) : bool * graph :=
  match strip_prefix (list_byte_of_string "oncg") GB with
  | Some body => (true, (body, snd GF))
  | None => (false, GF)
  end.

Definition sample_readGCDAFormat (GB : list byte) : bool * list byte :=
  match strip_prefix (list_byte_of_string "adcg") GB with
  | Some body => (true, body)
  | None => (false, GB)
  end.

Definition sample_readGCDA (GF : graph) (GB : list byte) : bool * graph :=
  match GB with
  | [] => (false, GF)
  | _ :: _ => (true, (fst GF, GB))
  end.

#[export] Instance reader : GCOVLib := {
  GCOVFile := graph;
  GCOVBuffer := list byte;
  GCOVFile_new := ([], []);
  GCOVBuffer_new := fun B => B;
  readGCNO := sample_readGCNO;
  readGCDAFormat := sample_readGCDAFormat;
  readGCDA := sample_readGCDA
}.

(** Files by name, directories, files that cannot be read, what is left on
    standard input, and the reports written so far. *)
Record disk : Type := mk_disk {
  files : list (string * list byte);
  dirs : list string;
  locked : list string;
  stdin : list byte;
  reports : list (string * string * string)
}.

Definition ENOENT : error_code := mk_error_code 2 generic_category.
Definition EACCES : error_code := mk_error_code 13 generic_category.

Fixpoint lookup (name : string) (l : list (string * list byte))
    : option (list byte) :=
  match l with
  | [] => None
  | (n, b) :: rest => if String.eqb n name then Some b else lookup name rest
  end.

Definition mem (name : string) (l : list string) : bool :=
  existsb (String.eqb name) l.

Definition sample_getFileOrSTDIN (name : string) (d : disk)
    : ErrorOr MemoryBuffer * disk :=
  if String.eqb name "-" then
    (EO_value (stdin d),
     mk_disk (files d) (dirs d) (locked d) [] (reports d))
  else if mem name (locked d) then (EO_error EACCES eq_refl, d)
  else
    match lookup name (files d) with
    | Some b => (EO_value b, d)
    | None => (EO_error ENOENT eq_refl, d)
    end.

Definition sample_equivalent (EC : error_code) (c : errc) : bool :=
  match c with
  | no_such_file_or_directory => (value EC =? 2)%Z
  | permission_denied => (value EC =? 13)%Z
  | is_a_directory => (value EC =? 21)%Z
  | io_error => (value EC =? 5)%Z
  end.

Definition sample_message (EC : error_code) : string :=
  if (value EC =? 2)%Z then "No such file or directory"
  else if (value EC =? 13)%Z then "Permission denied"
  else "Unknown error".

Definition sample_gcovOneInput (O : GCOV_Options)
    (SourceFile GCNO GCDA : string) (GF : graph) (d : disk) : disk :=
  mk_disk (files d) (dirs d) (locked d) (stdin d)
    (reports d ++ [(SourceFile, GCNO, GCDA)])%list.

#[export] Instance machine : Host reader := {
  Sys := disk;
  is_directory := fun p d => mem p (dirs d);
  getFileOrSTDIN := fun name _ _ => sample_getFileOrSTDIN name;
  message := sample_message;
  equivalent := sample_equivalent;
  gcovOneInput := sample_gcovOneInput
}.

Definition bytes (s : string) : list byte := list_byte_of_string s.

(** a.gcno and a.gcda are well formed; b has notes only; c.gcda has a wrong
    magic; d.gcda has the magic and nothing after it; e.gcno is not a notes
    file; f.gcda exists and cannot be read. *)
Definition disk0 : disk := {|
  files := [ ("src/a.gcno", bytes "oncgA"); ("src/a.gcda", bytes "adcg1");
             ("src/b.gcno", bytes "oncgB");
             ("src/c.gcno", bytes "oncgC"); ("src/c.gcda", bytes "junk");
             ("src/d.gcno", bytes "oncgD"); ("src/d.gcda", bytes "adcg");
             ("src/e.gcno", bytes "text");
             ("src/f.gcno", bytes "oncgF"); ("src/f.gcda", bytes "adcg2");
             ("obj/a.gcno", bytes "oncgO") ];
  dirs := [ "src"; "obj" ];
  locked := [ "src/f.gcda"; "src/g.gcno" ];
  stdin := [];
  reports := []
|}.

Definition plain : GCOV_Options :=
  mk_Options false false false false false false false false false false
    false false false "".

Definition cmd (sources : list string) (o gcno gcda : string) (dump : bool)
    : CommandLine :=
  mk_CommandLine sources false false false false false false false false o
    false false "" false false false dump gcno gcda.

(** src/h.c has no notes file, src/b.c has notes only, src/a.c has both. *)
Definition three_files : CommandLine :=
  cmd ["src/h.c"; "src/b.c"; "src/a.c"] "" "" "" false.

(** src/a.c has notes and data, src/b.c has notes only. *)
Definition two_files : CommandLine := cmd ["src/a.c"; "src/b.c"] "" "" "" false.

End Sample.

(** * Properties *)

(** ** Strings and error codes *)

Lemma empty_true_iff (s : string) : empty s = true <-> s = "".
Proof. destruct s; simpl; split; intros H; congruence. Qed.

Lemma empty_false_iff (s : string) : empty s = false <-> s <> "".
Proof. destruct s; simpl; split; intros H; congruence. Qed.

Lemma string_app_assoc (a b c : string) : (a ++ b) ++ c = a ++ (b ++ c).
Proof. induction a as [| x a IH]; simpl; [reflexivity | now rewrite IH]. Qed.

(** [if (std::error_code EC = B.getError())] takes its branch exactly when
    [B] is in the error state, which is why the pipeline below is written
    with a [match] on the two constructors. *)
Lemma getError_bool (T : Type) (E : ErrorOr T) :
  error_code_bool (getError E) = true <-> exists EC H, E = EO_error EC H.
Proof.
  destruct E as [v | EC H]; simpl; split.
  - discriminate.
  - intros (EC & H & Heq). discriminate.
  - intros _. now exists EC, H.
  - intros _. exact H.
Qed.

(** ** Path Resolver *)

Section PathResolverFacts.
Context {P : PathLib} {G : GCOVLib} {H : Host G}.

(** Computing the stem leaves the host as it was. *)
Lemma createCoverageFileStem_run (SourceFile ObjectDir : string) (s : Sys) :
  createCoverageFileStem SourceFile ObjectDir s =
  (stemOf SourceFile ObjectDir s, s, stemEvents SourceFile ObjectDir s).
Proof.
  unfold stemOf, stemEvents, createCoverageFileStem, bind, fs_is_directory, ret.
  destruct (empty ObjectDir); [reflexivity |].
  destruct (is_directory ObjectDir s); reflexivity.
Qed.

(** The file system is asked at most one question, and none about an
    empty override. *)
Lemma stemEvents_cases (SourceFile ObjectDir : string) (s : Sys) :
  stemEvents SourceFile ObjectDir s =
  if empty ObjectDir then [] else [ev_is_directory ObjectDir].
Proof.
  unfold stemEvents, createCoverageFileStem, bind, fs_is_directory, ret.
  destruct (empty ObjectDir); [reflexivity |].
  destruct (is_directory ObjectDir s); reflexivity.
Qed.

(** C6. [createCoverageFileStem] decides in this order.  With an empty
    override the stem is the parent directory of the source path joined
    with the source's base name without its extension, and the file system
    is not consulted.  With a non-empty override that is a directory, the
    stem is the override joined with that base name, so two sources with
    the same base name give the same stem whatever their directories.
    Otherwise the stem is the override with its extension removed, the same
    for every source path. *)
Theorem createCoverageFileStem_three_way (p d : string) (s : Sys) :
  (d = "" ->
     createCoverageFileStem p d s =
     (append (parent_path p) (stem p), s, []))
  /\ (d <> "" -> is_directory d s = true ->
        createCoverageFileStem p d s =
        (append d (stem p), s, [ev_is_directory d])
        /\ forall p', stem p' = stem p ->
             createCoverageFileStem p' d s = createCoverageFileStem p d s)
  /\ (d <> "" -> is_directory d s = false ->
        createCoverageFileStem p d s =
        (replace_extension d "", s, [ev_is_directory d])
        /\ forall p',
             createCoverageFileStem p' d s = createCoverageFileStem p d s).
Proof.
  unfold createCoverageFileStem, bind, fs_is_directory, ret.
  split; [| split].
  - intros ->. reflexivity.
  - intros Hgiven Hdir. apply empty_false_iff in Hgiven.
    rewrite Hgiven, Hdir. split; [reflexivity |].
    intros p' Hp. now rewrite Hp.
  - intros Hgiven Hfile. apply empty_false_iff in Hgiven.
    rewrite Hgiven, Hfile. split; [reflexivity |].
    intros p'. reflexivity.
Qed.

End PathResolverFacts.

(** C7. [createInputFileName] returns a supplied override as it is,
    whatever the stem and the suffix; without one it returns the stem
    followed by ".gcno" for the notes file and by ".gcda" for the data
    file. *)
Theorem createInputFileName_override_or_default (Stem Override : string) :
  (Override <> "" ->
     forall suffix, createInputFileName Stem Override suffix = Override)
  /\ createInputFileName Stem "" "no" = Stem ++ ".gcno"
  /\ createInputFileName Stem "" "da" = Stem ++ ".gcda".
Proof.
  unfold createInputFileName. repeat split.
  - intros Hne suffix. apply empty_false_iff in Hne. now rewrite Hne.
  - simpl. now rewrite string_app_assoc.
  - simpl. now rewrite string_app_assoc.
Qed.

(** ** Reading the events of a run *)

Section ReadingFacts.
Context {P : PathLib} {G : GCOVLib} {H : Host G}.

Lemma diagnostics_app (a b : list Event) :
  diagnostics (a ++ b) = (diagnostics a ++ diagnostics b)%list.
Proof. apply flat_map_app. Qed.

Lemma loads_app (a b : list Event) :
  loads (a ++ b) = (loads a ++ loads b)%list.
Proof. apply flat_map_app. Qed.

Lemma renders_app (a b : list Event) :
  renders (a ++ b) = (renders a ++ renders b)%list.
Proof. apply flat_map_app. Qed.

Lemma data_reads_app (a b : list Event) :
  data_reads (a ++ b) = (data_reads a ++ data_reads b)%list.
Proof. apply filter_app. Qed.

Lemma notes_reads_app (a b : list Event) :
  notes_reads (a ++ b) = (notes_reads a ++ notes_reads b)%list.
Proof. apply filter_app. Qed.

(** Computing the stem writes nothing, loads nothing, reads nothing and
    renders nothing. *)
Lemma stemEvents_silent (p d : string) (s : Sys) :
  diagnostics (stemEvents p d s) = []
  /\ loads (stemEvents p d s) = []
  /\ renders (stemEvents p d s) = []
  /\ data_reads (stemEvents p d s) = []
  /\ notes_reads (stemEvents p d s) = [].
Proof.
  rewrite stemEvents_cases. destruct (empty d); simpl; auto.
Qed.

Lemma graph_flow_stemEvents (p d : string) (s : Sys) (cur : GCOVFile)
    (es : list Event) :
  graph_flow cur (stemEvents p d s ++ es) <-> graph_flow cur es.
Proof.
  rewrite stemEvents_cases. destruct (empty d); simpl; tauto.
Qed.

End ReadingFacts.

(** Rewrites the readings of [stemEvents _ _ _ ++ l] to those of [l]. *)
Ltac read_events :=
  unfold events; cbn [snd];
  rewrite ?diagnostics_app, ?loads_app, ?renders_app, ?data_reads_app,
    ?notes_reads_app;
  repeat match goal with
  | |- context [stemEvents ?p ?d ?s] =>
      let Hs := fresh "Hs" in
      destruct (stemEvents_silent p d s) as (Hs & ? & ? & ? & ?);
      rewrite ?Hs;
      repeat match goal with
      | Hx : _ (stemEvents p d s) = [] |- _ => rewrite ?Hx; clear Hx
      end
  end;
  cbn [app].

(** Unfolds one pipeline run down to the calls of the interfaces. *)
Ltac open_pipeline :=
  unfold reportCoverage, validateGCNOFile, validateGCDAFile, dumpAndReport,
    reportGCOVFileNameError, errs, GF_readGCNO, GB_readGCDAFormat,
    GF_readGCDA, GF_print, call_gcovOneInput, getGCOVFileOrSTDIN, bind, emit,
    ret;
  rewrite createCoverageFileStem_run.

(** ** The pipeline, one outcome at a time *)

Section PipelineFacts.
Context {P : PathLib} {G : GCOVLib} {H : Host G}.

Variables (SourceFile ObjectDir InputGCNO InputGCDA : string).
Variables (DumpGCOV : bool) (Options : GCOV_Options).
Variable s : Sys.

Local Abbreviation GCNO := (notesName SourceFile ObjectDir InputGCNO s).
Local Abbreviation GCDA := (dataName SourceFile ObjectDir InputGCDA s).
Local Abbreviation run :=
  (reportCoverage SourceFile ObjectDir InputGCNO InputGCDA DumpGCOV Options s).
Local Abbreviation before_notes :=
  (stemEvents SourceFile ObjectDir s ++ [ev_getFileOrSTDIN GCNO])%list.

(** C4. When the notes file cannot be loaded, whatever the error code, the
    run writes the line "<notes file name>: <message of the code>" and
    returns: the notes reader, the loader for the data file and the
    renderer are not called.  The run returns a result for every input, so
    there is no crash. *)
Theorem notes_load_error_abandons_file
    (s1 : Sys) (EC : error_code) (is_error : error_code_bool EC = true) :
  getFileOrSTDIN GCNO false false s = (EO_error EC is_error, s1) ->
  run = (tt, s1,
         (before_notes ++ [ev_errs (GCNO ++ ": " ++ message EC ++ endl)])%list)
  /\ diagnostics (events run) = [GCNO ++ ": " ++ message EC ++ endl]
  /\ notes_reads (events run) = []
  /\ loads (events run) = [GCNO]
  /\ data_reads (events run) = []
  /\ renders (events run) = [].
Proof.
  intros Hload.
  assert (Hrun : run = (tt, s1,
    (before_notes ++ [ev_errs (GCNO ++ ": " ++ message EC ++ endl)])%list)).
  { open_pipeline. unfold notesName in *. rewrite Hload.
    now rewrite <- app_assoc. }
  rewrite Hrun. split; [reflexivity |]. read_events. repeat split.
Qed.

Section NotesLoaded.
Variables (s1 : Sys) (notes : MemoryBuffer).
Hypothesis notes_loaded : getFileOrSTDIN GCNO false false s = (EO_value notes, s1).

Local Abbreviation GCNO_GB := (GCOVBuffer_new notes).
Local Abbreviation through_notes :=
  (before_notes ++ [ev_readGCNO GCOVFile_new GCNO_GB])%list.

(** C3. When the notes file loads and the notes reader rejects it, the run
    writes the single line "Invalid .gcno File!" and returns: the loader is
    called for the notes file only, the data file is neither loaded nor
    read, and the renderer is not called. *)
Theorem rejected_notes_produce_no_report (GF1 : GCOVFile) :
  readGCNO GCOVFile_new GCNO_GB = (false, GF1) ->
  run = (tt, s1,
         (through_notes ++ [ev_errs ("Invalid .gcno File!" ++ endl)])%list)
  /\ diagnostics (events run) = ["Invalid .gcno File!" ++ endl]
  /\ loads (events run) = [GCNO]
  /\ data_reads (events run) = []
  /\ renders (events run) = [].
Proof.
  intros Hread.
  assert (Hrun : run = (tt, s1,
    (through_notes ++ [ev_errs ("Invalid .gcno File!" ++ endl)])%list)).
  { open_pipeline. unfold notesName in *. rewrite notes_loaded, Hread.
    cbn [negb app]. now rewrite <- !app_assoc. }
  rewrite Hrun. split; [reflexivity |]. read_events. repeat split.
Qed.

Section NotesAccepted.
Variable GF1 : GCOVFile.
Hypothesis notes_accepted : readGCNO GCOVFile_new GCNO_GB = (true, GF1).

Local Abbreviation before_data := (through_notes ++ [ev_getFileOrSTDIN GCDA])%list.
Local Abbreviation dump GF := (if DumpGCOV then [ev_print GF] else []).

(** C1. With the notes loaded and accepted, when loading the data file
    fails with a code equivalent to "no such file or directory", the run
    writes no line to the diagnostic stream, calls neither the header check
    nor the data reader, and calls the renderer with "-" as the data-file
    name and the graph the notes reader left.  (With --dump the graph is
    printed first; that is the dump, not a diagnostic.) *)
Theorem missing_data_file_falls_back
    (s2 : Sys) (EC : error_code) (is_error : error_code_bool EC = true) :
  getFileOrSTDIN GCDA false false s1 = (EO_error EC is_error, s2) ->
  equivalent EC no_such_file_or_directory = true ->
  run = (tt, gcovOneInput Options SourceFile GCNO "-" GF1 s2,
         (before_data ++ dump GF1 ++
          [ev_gcovOneInput Options SourceFile GCNO "-" GF1])%list)
  /\ diagnostics (events run) = []
  /\ data_reads (events run) = []
  /\ renders (events run) = [(Options, SourceFile, GCNO, "-", GF1)].
Proof.
  intros Hload Hmissing.
  assert (Hrun : run = (tt, gcovOneInput Options SourceFile GCNO "-" GF1 s2,
    (before_data ++ dump GF1 ++
     [ev_gcovOneInput Options SourceFile GCNO "-" GF1])%list)).
  { open_pipeline. unfold notesName, dataName in *.
    rewrite notes_loaded, notes_accepted. cbn [negb].
    rewrite Hload, Hmissing. cbn [negb].
    destruct DumpGCOV; cbn [app]; now rewrite <- !app_assoc. }
  rewrite Hrun. split; [reflexivity |]. read_events.
  destruct DumpGCOV; repeat split.
Qed.

(** C5. With the notes loaded and accepted, when loading the data file
    fails with a code that is not equivalent to "no such file or
    directory", the run writes "<data file name>: <message of the code>"
    and returns without calling the renderer. *)
Theorem data_load_error_abandons_file
    (s2 : Sys) (EC : error_code) (is_error : error_code_bool EC = true) :
  getFileOrSTDIN GCDA false false s1 = (EO_error EC is_error, s2) ->
  equivalent EC no_such_file_or_directory = false ->
  run = (tt, s2,
         (before_data ++ [ev_errs (GCDA ++ ": " ++ message EC ++ endl)])%list)
  /\ diagnostics (events run) = [GCDA ++ ": " ++ message EC ++ endl]
  /\ data_reads (events run) = []
  /\ renders (events run) = [].
Proof.
  intros Hload Hother.
  assert (Hrun : run = (tt, s2,
    (before_data ++ [ev_errs (GCDA ++ ": " ++ message EC ++ endl)])%list)).
  { open_pipeline. unfold notesName, dataName in *.
    rewrite notes_loaded, notes_accepted. cbn [negb].
    rewrite Hload, Hother. cbn [negb app]. now rewrite <- !app_assoc. }
  rewrite Hrun. split; [reflexivity |]. read_events. repeat split.
Qed.

(** C2. With the notes loaded and accepted and the data file loaded: when
    the header check fails, the run writes "<data file name>:not a gcov
    data file", does not call the data reader, and calls the renderer with
    the graph the notes reader left; when the header check passes and the
    data reader rejects the buffer, the run writes "Invalid .gcda File!" and
    calls the renderer with the graph as the data reader left it.  In both
    cases the renderer is called once, with the data-file name. *)
Theorem malformed_data_still_reports (s2 : Sys) (data : MemoryBuffer) :
  getFileOrSTDIN GCDA false false s1 = (EO_value data, s2) ->
  let gcda_buf := GCOVBuffer_new data in
  (forall gcda_buf',
     readGCDAFormat gcda_buf = (false, gcda_buf') ->
     run = (tt, gcovOneInput Options SourceFile GCNO GCDA GF1 s2,
            (before_data ++
             [ev_readGCDAFormat gcda_buf;
              ev_errs (GCDA ++ ":not a gcov data file" ++ endl)] ++
             dump GF1 ++
             [ev_gcovOneInput Options SourceFile GCNO GCDA GF1])%list)
     /\ diagnostics (events run) = [GCDA ++ ":not a gcov data file" ++ endl]
     /\ data_reads (events run) = [ev_readGCDAFormat gcda_buf]
     /\ renders (events run) = [(Options, SourceFile, GCNO, GCDA, GF1)])
  /\ (forall gcda_buf' GF2,
        readGCDAFormat gcda_buf = (true, gcda_buf') ->
        readGCDA GF1 gcda_buf' = (false, GF2) ->
        run = (tt, gcovOneInput Options SourceFile GCNO GCDA GF2 s2,
               (before_data ++
                [ev_readGCDAFormat gcda_buf; ev_readGCDA GF1 gcda_buf';
                 ev_errs ("Invalid .gcda File!" ++ endl)] ++
                dump GF2 ++
                [ev_gcovOneInput Options SourceFile GCNO GCDA GF2])%list)
        /\ diagnostics (events run) = ["Invalid .gcda File!" ++ endl]
        /\ renders (events run) = [(Options, SourceFile, GCNO, GCDA, GF2)]).
Proof.
  intros Hload gcda_buf. split.
  - intros gcda_buf' Hheader.
    match goal with |- ?l = ?r /\ _ => assert (Hrun : l = r) end.
    { open_pipeline. unfold notesName, dataName in *.
      rewrite notes_loaded, notes_accepted. cbn [negb].
      rewrite Hload. fold gcda_buf. rewrite Hheader. cbn [negb].
      destruct DumpGCOV; cbn [app]; now rewrite <- !app_assoc. }
    rewrite Hrun. split; [reflexivity |]. read_events.
    destruct DumpGCOV; repeat split.
  - intros gcda_buf' GF2 Hheader Hread.
    match goal with |- ?l = ?r /\ _ => assert (Hrun : l = r) end.
    { open_pipeline. unfold notesName, dataName in *.
      rewrite notes_loaded, notes_accepted. cbn [negb].
      rewrite Hload. fold gcda_buf. rewrite Hheader. cbn [negb].
      rewrite Hread. cbn [negb].
      destruct DumpGCOV; cbn [app]; now rewrite <- !app_assoc. }
    rewrite Hrun. split; [reflexivity |]. read_events.
    destruct DumpGCOV; repeat split.
Qed.

(** C10. With the notes loaded and accepted and a data-file name given
    with --gcda, when that file does not exist the run loads exactly the
    given name, writes no line to the diagnostic stream and calls the
    renderer with "-" as the data-file name: the fallback is the one of an
    inferred name. *)
Theorem missing_explicit_data_file_falls_back
    (s2 : Sys) (EC : error_code) (is_error : error_code_bool EC = true) :
  InputGCDA <> "" ->
  getFileOrSTDIN InputGCDA false false s1 = (EO_error EC is_error, s2) ->
  equivalent EC no_such_file_or_directory = true ->
  GCDA = InputGCDA
  /\ run = (tt, gcovOneInput Options SourceFile GCNO "-" GF1 s2,
            (through_notes ++ [ev_getFileOrSTDIN InputGCDA] ++ dump GF1 ++
             [ev_gcovOneInput Options SourceFile GCNO "-" GF1])%list)
  /\ diagnostics (events run) = []
  /\ renders (events run) = [(Options, SourceFile, GCNO, "-", GF1)].
Proof.
  intros Hgiven Hload Hmissing.
  assert (Hname : GCDA = InputGCDA).
  { unfold dataName, createInputFileName.
    apply empty_false_iff in Hgiven. now rewrite Hgiven. }
  split; [exact Hname |].
  match goal with |- ?l = ?r /\ _ => assert (Hrun : l = r) end.
  { open_pipeline. unfold notesName in *. fold GCDA. rewrite Hname.
    rewrite notes_loaded, notes_accepted. cbn [negb].
    rewrite Hload, Hmissing. cbn [negb].
    destruct DumpGCOV; cbn [app]; now rewrite <- !app_assoc. }
  rewrite Hrun. split; [reflexivity |]. read_events.
  destruct DumpGCOV; repeat split.
Qed.

End NotesAccepted.
End NotesLoaded.
End PipelineFacts.

(** ** Driver *)

Section DriverFacts.
Context {P : PathLib} {G : GCOVLib} {H : Host G}.

(** All the ways one pipeline run can go. *)
Ltac every_outcome s DumpGCOV :=
  open_pipeline; destruct DumpGCOV;
  (destruct (getFileOrSTDIN _ _ _ s) as [[notes | EC is_error] s1] eqn:Hload1;
   [ destruct (readGCNO _ _) as [[|] GF1] eqn:Hnotes; cbn [negb];
     [ destruct (getFileOrSTDIN _ _ _ s1) as [[data | EC is_error] s2] eqn:Hload2;
       [ destruct (readGCDAFormat _) as [[|] gcda_buf]; cbn [negb];
         [ destruct (readGCDA _ _) as [[|] GF2] eqn:Hdata; cbn [negb] | ]
       | destruct (equivalent EC _); cbn [negb] ]
     | ]
   | ]).

(** Within one run the graph is created new, filled by the notes reader,
    then by the data reader, and that graph is the one printed and
    rendered. *)
Lemma reportCoverage_graph_flow
    (SourceFile ObjectDir InputGCNO InputGCDA : string) (DumpGCOV : bool)
    (Options : GCOV_Options) (s : Sys) :
  graph_flow GCOVFile_new
    (events (reportCoverage SourceFile ObjectDir InputGCNO InputGCDA
               DumpGCOV Options s)).
Proof.
  every_outcome s DumpGCOV; unfold events; cbn [snd];
    apply graph_flow_stemEvents; cbn [app graph_flow];
    rewrite ?Hnotes; cbn [snd]; rewrite ?Hdata; cbn [snd]; auto.
Qed.

Lemma reportCoverage_reads_into_new_graph
    (SourceFile ObjectDir InputGCNO InputGCDA : string) (DumpGCOV : bool)
    (Options : GCOV_Options) (s : Sys) :
  Forall reads_into_new_graph
    (events (reportCoverage SourceFile ObjectDir InputGCNO InputGCDA
               DumpGCOV Options s)).
Proof.
  every_outcome s DumpGCOV; unfold events; cbn [snd];
    rewrite stemEvents_cases; destruct (empty ObjectDir); cbn [app];
    repeat (constructor; try exact I; try reflexivity).
Qed.

(** A run that does not reach the renderer changes the host only by what
    loading its files changed. *)
Lemma reportCoverage_without_report
    (SourceFile ObjectDir InputGCNO InputGCDA : string) (DumpGCOV : bool)
    (Options : GCOV_Options) (s : Sys) :
  let r := reportCoverage SourceFile ObjectDir InputGCNO InputGCDA
             DumpGCOV Options s in
  renders (events r) = [] ->
  host r =
  fold_left (fun s' name => snd (getFileOrSTDIN name false false s')) (loads (events r)) s.
Proof.
  cbv zeta. unfold host.
  every_outcome s DumpGCOV; read_events; cbn [fst snd];
    try discriminate.
  all: intros _; cbn [loads flat_map app fold_left].
  all: rewrite Hload1; cbn [snd]; rewrite ?Hload2; reflexivity.
Qed.

(** The loop gives every entry one run, in order. *)
Lemma for_each_Processed (cl : CommandLine) (xs : list string) (s : Sys) :
  exists segs,
    Processed cl xs s (host (for_each xs (runOne cl) s)) segs
    /\ events (for_each xs (runOne cl) s) = concat segs
    /\ Forall2 (fun x seg => exists s0, seg = events (runOne cl x s0)) xs segs.
Proof.
  revert s. induction xs as [| x xs IH]; intros s.
  - exists []. repeat split; constructor.
  - cbn [for_each]. unfold bind.
    destruct (runOne cl x s) as [[[] s1] e] eqn:Hx.
    destruct (IH s1) as (segs & Hproc & Hev & Hall).
    destruct (for_each xs (runOne cl) s1) as [[[] s2] es].
    unfold host, events in *. cbn [fst snd] in *.
    exists (e :: segs). repeat split.
    + econstructor; eassumption.
    + cbn [concat]. now rewrite Hev.
    + constructor; [| exact Hall]. exists s. now rewrite Hx.
Qed.

Lemma gcovMain_run (cl : CommandLine) (s : Sys) :
  gcovMain cl s =
  (0%Z, host (for_each (SourceFiles cl) (runOne cl) s),
   events (for_each (SourceFiles cl) (runOne cl) s)).
Proof.
  unfold gcovMain, bind, ret.
  change (fun SourceFile : string =>
            reportCoverage SourceFile (ObjectDir cl) (InputGCNO cl)
              (InputGCDA cl) (DumpGCOV cl) (Options_of cl))
    with (runOne cl).
  destruct (for_each (SourceFiles cl) (runOne cl) s) as [[[] s1] e].
  unfold host, events. cbn [fst snd]. now rewrite app_nil_r.
Qed.

(** A loop over [xs ++ ys] is the loop over [xs] followed by the loop over
    [ys] on the host the first one left. *)
Lemma for_each_app (A : Type) (body : A -> M unit) (xs ys : list A) (s : Sys) :
  for_each (xs ++ ys) body s =
  (tt, host (for_each ys body (host (for_each xs body s))),
   (events (for_each xs body s) ++
    events (for_each ys body (host (for_each xs body s))))%list).
Proof.
  revert s. induction xs as [| x xs IH]; intros s.
  - cbn [app for_each]. unfold ret, host, events. cbn [fst snd app].
    now destruct (for_each ys body s) as [[[] s1] e].
  - cbn [app for_each]. unfold bind.
    destruct (body x s) as [[[] s1] e1]. rewrite IH.
    destruct (for_each xs body s1) as [[[] s2] e2].
    unfold host, events. cbn [fst snd].
    now rewrite app_assoc.
Qed.

Lemma for_each_cons (A : Type) (body : A -> M unit) (x : A) (ys : list A)
    (s : Sys) :
  for_each (x :: ys) body s =
  (tt, host (for_each ys body (host (body x s))),
   (events (body x s) ++ events (for_each ys body (host (body x s))))%list).
Proof.
  cbn [for_each]. unfold bind.
  destruct (body x s) as [[[] s1] e1]. unfold host at 2 3. cbn [fst snd].
  now destruct (for_each ys body s1) as [[[] s2] e2].
Qed.

(** C8. [gcovMain] gives every source file of the command line, in order,
    one pipeline run that starts on the host the run before it left,
    whatever that run did; its events are those of the runs one after the
    other; and the exit status is 0 whatever the runs did.  A run that does
    not reach the renderer changes the host only by what loading its files
    changed, and when a run leaves the host as it found it, the source
    files after it are processed as if it had not been on the command
    line. *)
Theorem gcovMain_runs_every_file_and_exits_0 (cl : CommandLine) (s : Sys) :
  result (gcovMain cl s) = 0%Z
  /\ (exists segs,
        Processed cl (SourceFiles cl) s (host (gcovMain cl s)) segs
        /\ events (gcovMain cl s) = concat segs)
  /\ (forall x s0,
        renders (events (runOne cl x s0)) = [] ->
        host (runOne cl x s0) =
        fold_left (fun s' name => snd (getFileOrSTDIN name false false s'))
          (loads (events (runOne cl x s0))) s0)
  /\ (forall xs x ys,
        SourceFiles cl = (xs ++ x :: ys)%list ->
        let before := for_each xs (runOne cl) s in
        let this := runOne cl x (host before) in
        let after := for_each ys (runOne cl) (host before) in
        host this = host before ->
        events (gcovMain cl s) =
          (events before ++ events this ++ events after)%list
        /\ host (gcovMain cl s) = host after).
Proof.
  rewrite gcovMain_run. split; [reflexivity |]. split; [| split].
  - destruct (for_each_Processed cl (SourceFiles cl) s)
      as (segs & Hproc & Hev & _).
    exists segs. split; assumption.
  - intros x s0. apply reportCoverage_without_report.
  - intros xs x ys Hsplit. cbv zeta. intros Hsame.
    rewrite Hsplit, for_each_app, for_each_cons.
    unfold host at 1 2, events at 1 3. cbn [fst snd].
    rewrite Hsame. split; reflexivity.
Qed.

(** All the ways one pipeline run can go, with the answers kept. *)
Ltac every_answer s DumpGCOV :=
  unfold notes_read_on_new_graph, graph_to_render, graph_built, notesName,
    dataName;
  open_pipeline; destruct DumpGCOV;
  (destruct (getFileOrSTDIN _ _ _ s) as [[notes | EC is_error] s1];
   cbn [fst snd];
   [ destruct (readGCNO _ _) as [[|] GF1]; cbn [negb fst snd];
     [ destruct (getFileOrSTDIN _ _ _ s1) as [[data | EC is_error] s2];
       cbn [fst snd];
       [ destruct (readGCDAFormat _) as [[|] gcda_buf]; cbn [negb fst snd];
         [ destruct (readGCDA _ _) as [[|] GF2]; cbn [negb fst snd] | ]
       | destruct (equivalent EC _); cbn [negb] ]
     | ]
   | ]).

(** A run whose notes file loads calls the notes reader once, on a new
    graph and with the buffer of that file; a run whose notes file does
    not load does not call it. *)
Lemma reportCoverage_notes_read_on_new_graph
    (SourceFile ObjectDir InputGCNO InputGCDA : string) (DumpGCOV : bool)
    (Options : GCOV_Options) (s : Sys) :
  notes_reads (events (reportCoverage SourceFile ObjectDir InputGCNO
                         InputGCDA DumpGCOV Options s)) =
  notes_read_on_new_graph SourceFile ObjectDir InputGCNO s.
Proof.
  every_answer s DumpGCOV; read_events; reflexivity.
Qed.

(** The graph a run renders is the one built from a new graph and the two
    files of the run. *)
Lemma reportCoverage_graph_to_render
    (SourceFile ObjectDir InputGCNO InputGCDA : string) (DumpGCOV : bool)
    (Options : GCOV_Options) (s : Sys) :
  rendered_graphs (events (reportCoverage SourceFile ObjectDir InputGCNO
                             InputGCDA DumpGCOV Options s)) =
  graph_to_render SourceFile ObjectDir InputGCNO InputGCDA s.
Proof.
  unfold rendered_graphs. every_answer s DumpGCOV; read_events; reflexivity.
Qed.

Lemma rendered_graphs_app (a b : list Event) :
  rendered_graphs (a ++ b) = (rendered_graphs a ++ rendered_graphs b)%list.
Proof. unfold rendered_graphs. now rewrite renders_app, map_app. Qed.

Lemma for_each_new_graphs (cl : CommandLine) (xs : list string) (s : Sys) :
  notes_reads (events (for_each xs (runOne cl) s)) =
    notes_reads_on_new_graphs cl xs s
  /\ rendered_graphs (events (for_each xs (runOne cl) s)) =
     graphs_to_render cl xs s.
Proof.
  revert s. induction xs as [| x xs IH]; intros s; [split; reflexivity |].
  assert (Hcons : events (for_each (x :: xs) (runOne cl) s) =
                  (events (runOne cl x s) ++
                   events (for_each xs (runOne cl) (host (runOne cl x s))))%list)
    by now rewrite for_each_cons.
  rewrite Hcons, notes_reads_app, rendered_graphs_app.
  destruct (IH (host (runOne cl x s))) as (-> & ->).
  cbn [notes_reads_on_new_graphs graphs_to_render]. unfold runOne.
  now rewrite reportCoverage_notes_read_on_new_graph,
    reportCoverage_graph_to_render.
Qed.

(** C9. In a run of [gcovMain] every source file whose notes file loads
    has the notes reader called once, on a newly constructed [GCOVFile]
    and with the buffer of its own notes file, and these are all the calls
    of the notes reader, in the order of the command line.  The graphs
    handed to the renderer are, in order, the graphs built for each source
    file from a new [GCOVFile], its own notes file and its own data file:
    nothing read for an earlier source file is in them.  Moreover the
    events split into one segment per source file, in order, each the
    events of one pipeline run, and in each segment the data reader is
    called on what the notes reader of the same segment left, and the
    graph printed and rendered is the one the reads of the same segment
    left. *)
Theorem every_source_file_gets_a_new_graph (cl : CommandLine) (s : Sys) :
  notes_reads (events (gcovMain cl s)) =
    notes_reads_on_new_graphs cl (SourceFiles cl) s
  /\ rendered_graphs (events (gcovMain cl s)) =
     graphs_to_render cl (SourceFiles cl) s
  /\ (exists segs,
        events (gcovMain cl s) = concat segs
        /\ Forall2 (fun x seg =>
                      (exists s0, seg = events (runOne cl x s0))
                      /\ graph_flow GCOVFile_new seg)
             (SourceFiles cl) segs)
  /\ Forall reads_into_new_graph (events (gcovMain cl s)).
Proof.
  rewrite gcovMain_run. unfold events at 1 2 3 5. cbn [snd].
  split; [exact (proj1 (for_each_new_graphs cl (SourceFiles cl) s)) |].
  split; [exact (proj2 (for_each_new_graphs cl (SourceFiles cl) s)) |].
  destruct (for_each_Processed cl (SourceFiles cl) s)
    as (segs & _ & Hev & Hall).
  split.
  - exists segs. split; [exact Hev |].
    clear Hev. induction Hall as [| x seg xs segs' (s0 & ->) _ IH];
      constructor; [| exact IH].
    split; [now exists s0 | apply reportCoverage_graph_flow].
  - rewrite Hev. clear Hev.
    induction Hall as [| x seg xs segs' (s0 & ->) _ IH]; cbn [concat].
    + constructor.
    + apply Forall_app. split; [| exact IH].
      apply reportCoverage_reads_into_new_graph.
Qed.

End DriverFacts.

(** * Further properties of the pipeline *)

(** ** Artifact names *)


Lemma string_app_cancel_l (a b c : string) : a ++ b = a ++ c -> b = c.
Proof.
  induction a as [| x a IH]; simpl; intros Heq; [exact Heq |].
  injection Heq as Heq. now apply IH.
Qed.



(** ** One run, whatever its outcome *)

(** The outcomes of one pipeline run, each with the answers that lead to
    it. *)
Ltac split_run s :=
  unfold notesName, dataName in *; open_pipeline;
  (destruct (getFileOrSTDIN _ _ _ s) as [[notes | EC is_error] s1] eqn:Hload1;
   [ destruct (readGCNO _ _) as [[|] GF1] eqn:Hnotes; cbn [negb];
     [ destruct (getFileOrSTDIN _ _ _ s1) as [[data | EC is_error] s2]
         eqn:Hload2;
       [ destruct (readGCDAFormat _) as [[|] gcda_buf] eqn:Hheader;
         cbn [negb];
         [ destruct (readGCDA _ _) as [[|] GF2] eqn:Hdata; cbn [negb] | ]
       | destruct (equivalent EC _) eqn:Hmissing; cbn [negb] ]
     | ]
   | ]).

Section RunFacts.
Context {P : PathLib} {G : GCOVLib} {H : Host G}.

Variables (SourceFile ObjectDir InputGCNO InputGCDA : string).
Variables (DumpGCOV : bool) (Options : GCOV_Options).
Variable s : Sys.

Local Abbreviation GCNO := (notesName SourceFile ObjectDir InputGCNO s).
Local Abbreviation GCDA := (dataName SourceFile ObjectDir InputGCDA s).
Local Abbreviation run :=
  (reportCoverage SourceFile ObjectDir InputGCNO InputGCDA DumpGCOV Options s).

(** What the runs of the driver are counted by: the files a run loads,
    the single renderer call it can make, and the line or report it always
    leaves. *)
Lemma reportCoverage_loads :
  loads (events run) = [GCNO] \/ loads (events run) = [GCNO; GCDA].
Proof.
  destruct DumpGCOV; split_run s; read_events; cbn [loads flat_map app]; auto.
Qed.

Lemma reportCoverage_renders :
  renders (events run) = []
  \/ exists D GF, renders (events run) = [(Options, SourceFile, GCNO, D, GF)].
Proof.
  destruct DumpGCOV; split_run s; read_events; cbn [renders flat_map app];
    eauto.
Qed.

Lemma reportCoverage_line_or_report :
  length (diagnostics (events run)) <= 1
  /\ 1 <= length (diagnostics (events run)) + length (renders (events run)).
Proof.
  destruct DumpGCOV; split_run s; read_events;
    cbn [diagnostics renders flat_map app length]; lia.
Qed.

(** X14. With no override the notes file and the data file of a run have
    different names. *)
Theorem inferred_names_differ :
  InputGCNO = "" -> InputGCDA = "" ->
  notesName SourceFile ObjectDir InputGCNO s <>
  dataName SourceFile ObjectDir InputGCDA s.
Proof.
  intros -> ->. unfold notesName, dataName, createInputFileName. cbn [empty].
  intros Heq. apply string_app_cancel_l in Heq. discriminate.
Qed.

(** X1. When both files load and both readers accept them, the run writes no
    line, calls the header check and the data reader once each, and calls
    the renderer with the data-file name and the graph the data reader
    left. *)
Theorem accepted_notes_and_data_report
    (s1 s2 : Sys) (notes data : MemoryBuffer) (GF1 GF2 : GCOVFile)
    (gcda_buf' : GCOVBuffer) :
  getFileOrSTDIN GCNO false false s = (EO_value notes, s1) ->
  readGCNO GCOVFile_new (GCOVBuffer_new notes) = (true, GF1) ->
  getFileOrSTDIN GCDA false false s1 = (EO_value data, s2) ->
  readGCDAFormat (GCOVBuffer_new data) = (true, gcda_buf') ->
  readGCDA GF1 gcda_buf' = (true, GF2) ->
  run = (tt, gcovOneInput Options SourceFile GCNO GCDA GF2 s2,
         (stemEvents SourceFile ObjectDir s ++
          [ev_getFileOrSTDIN GCNO;
           ev_readGCNO GCOVFile_new (GCOVBuffer_new notes);
           ev_getFileOrSTDIN GCDA;
           ev_readGCDAFormat (GCOVBuffer_new data);
           ev_readGCDA GF1 gcda_buf'] ++
          (if DumpGCOV then [ev_print GF2] else []) ++
          [ev_gcovOneInput Options SourceFile GCNO GCDA GF2])%list)
  /\ diagnostics (events run) = []
  /\ renders (events run) = [(Options, SourceFile, GCNO, GCDA, GF2)].
Proof.
  intros Hload1 Hnotes Hload2 Hheader Hdata.
  match goal with |- ?l = ?r /\ _ => assert (Hrun : l = r) end.
  { open_pipeline. unfold notesName, dataName in *.
    rewrite Hload1, Hnotes. cbn [negb]. rewrite Hload2, Hheader. cbn [negb].
    rewrite Hdata. cbn [negb]. destruct DumpGCOV; reflexivity. }
  rewrite Hrun. split; [reflexivity |]. read_events.
  destruct DumpGCOV; split; reflexivity.
Qed.

(** X2. The renderer is called exactly when the notes file loads, the notes
    reader accepts it, and loading the data file either succeeds or fails
    with a code equivalent to "no such file or directory".  What the header
    check and the data reader answer plays no part. *)
Theorem report_iff_notes_accepted_and_data_loaded_or_missing :
  renders (events run) <> [] <->
  exists notes s1,
    getFileOrSTDIN GCNO false false s = (EO_value notes, s1)
    /\ fst (readGCNO GCOVFile_new (GCOVBuffer_new notes)) = true
    /\ match fst (getFileOrSTDIN GCDA false false s1) with
       | EO_value _ => True
       | EO_error EC _ => equivalent EC no_such_file_or_directory = true
       end.
Proof.
  destruct DumpGCOV; split_run s; read_events; cbn [fst snd]; split.
  all: try (intros Hr; exfalso; apply Hr; reflexivity).
  all: try (intros _; exists notes, s1; split; [reflexivity |];
            rewrite Hnotes, Hload2; cbn [fst]; auto; fail).
  all: intros (notes' & s1' & Heq & Hacc & Hdataload);
    try discriminate Heq; injection Heq as <- <-;
    rewrite Hnotes in Hacc; cbn [fst] in Hacc; try discriminate Hacc;
    rewrite Hload2 in Hdataload; cbn [fst] in Hdataload;
    try congruence; discriminate.
Qed.

(** X11. [validateGCNOFile] answers true exactly when the notes reader accepts
    the buffer, and exactly then it writes nothing; it hands back the graph
    as the reader left it and does not touch the host. *)
Theorem validateGCNOFile_answer (GCNO_Buff : MemoryBuffer) (GF : GCOVFile) :
  let r := validateGCNOFile GCNO_Buff GF s in
  let read := readGCNO GF (GCOVBuffer_new GCNO_Buff) in
  result r = read
  /\ host r = s
  /\ (fst (result r) = true <-> diagnostics (events r) = [])
  /\ (fst (result r) = false <->
      diagnostics (events r) = ["Invalid .gcno File!" ++ endl]).
Proof.
  cbv zeta.
  unfold validateGCNOFile, GF_readGCNO, errs, bind, emit, ret, result, host,
    events.
  destruct (readGCNO GF (GCOVBuffer_new GCNO_Buff)) as [[|] GF1];
    cbn [negb fst snd app diagnostics flat_map];
    repeat split; try reflexivity; intros Hx; discriminate Hx.
Qed.

(** X12. [validateGCDAFile] does not touch the host.  After a wrong header it
    hands back the graph it was given and has not called the data reader;
    otherwise it hands back the graph as the data reader left it, accepted
    or not.  It writes nothing exactly when the header check and the data
    reader both accept. *)
Theorem validateGCDAFile_answer (GF : GCOVFile) (name : string)
    (GCDA_Buff : MemoryBuffer) :
  let r := validateGCDAFile GF name GCDA_Buff s in
  let header := readGCDAFormat (GCOVBuffer_new GCDA_Buff) in
  host r = s
  /\ (fst header = false ->
      result r = GF
      /\ data_reads (events r) = [ev_readGCDAFormat (GCOVBuffer_new GCDA_Buff)])
  /\ (fst header = true -> result r = snd (readGCDA GF (snd header)))
  /\ (diagnostics (events r) = [] <->
      fst header = true /\ fst (readGCDA GF (snd header)) = true).
Proof.
  cbv zeta.
  unfold validateGCDAFile, GB_readGCDAFormat, GF_readGCDA, errs, bind, emit,
    ret, result, host, events.
  destruct (readGCDAFormat (GCOVBuffer_new GCDA_Buff)) as [[|] gcda_buf];
    cbn [negb fst snd app];
    [ destruct (readGCDA GF gcda_buf) as [[|] GF2] | ];
    cbn [negb fst snd app diagnostics data_reads flat_map filter];
    repeat split; try reflexivity; try discriminate;
    try (intros (Ha & Hb); discriminate); intros Hx; discriminate Hx.
Qed.

(** X9. The host a run leaves is the host after its loads and then after its
    renderer call: the readers, the header check, the lines written and the
    dump do not touch it. *)
Theorem host_changes_by_loads_and_renderer :
  host run = after_renders (renders (events run))
               (after_loads (loads (events run)) s).
Proof.
  unfold after_renders, after_loads.
  destruct DumpGCOV; split_run s; unfold host; read_events;
    cbn [fst snd renders loads flat_map app fold_left];
    rewrite Hload1; cbn [snd]; rewrite ?Hload2; reflexivity.
Qed.

(** X10. A run asks the file system about the object directory at most once,
    before it loads anything, and not at all when no -o was given. *)
Theorem object_directory_is_examined_first :
  exists rest,
    events run =
      ((if empty ObjectDir then [] else [ev_is_directory ObjectDir]) ++
       rest)%list
    /\ Forall not_a_directory_query rest
    /\ hd_error rest = Some (ev_getFileOrSTDIN GCNO).
Proof.
  unfold events. destruct DumpGCOV; split_run s; cbn [snd];
    rewrite stemEvents_cases; destruct (empty ObjectDir); cbn [app];
    eexists; (split; [reflexivity |]);
    (split; [repeat constructor | reflexivity]).
Qed.

(** Concrete events: the stem query, if any, made explicit. *)
Ltac concrete_events :=
  unfold host, events, result; cbn [fst snd];
  rewrite ?stemEvents_cases; destruct (empty ObjectDir); cbn [app].

(** X3. A run loads the notes file first, loads at most the data file after
    it, calls the notes reader at most once, writes at most one line and
    calls the renderer at most once; when it calls the renderer, that call
    is the last thing it does. *)
Theorem run_shape :
  (loads (events run) = [GCNO] \/ loads (events run) = [GCNO; GCDA])
  /\ length (notes_reads (events run)) <= 1
  /\ length (diagnostics (events run)) <= 1
  /\ length (renders (events run)) <= 1
  /\ (renders (events run) <> [] ->
      exists Opts Src N D GF,
        hd_error (rev (events run)) = Some (ev_gcovOneInput Opts Src N D GF)).
Proof.
  destruct DumpGCOV; split_run s; concrete_events;
    cbn [loads notes_reads diagnostics renders flat_map filter app length
         rev hd_error];
    (split; [auto |]); (split; [lia |]); (split; [lia |]); (split; [lia |]);
    intros Hr; try (exfalso; apply Hr; reflexivity); repeat eexists.
Qed.

(** X4. A run never skips a source file in silence: when it writes no line,
    it has called the renderer, once. *)
Theorem quiet_run_reports :
  diagnostics (events run) = [] -> length (renders (events run)) = 1.
Proof.
  destruct DumpGCOV; split_run s; read_events;
    cbn [diagnostics renders flat_map app length];
    intros Hquiet; try discriminate Hquiet; reflexivity.
Qed.

(** X5. The renderer is given the options and the source file of the run, the
    notes-file name of the run, and as data-file name either the name of
    the run or "-". *)
Theorem renderer_gets_the_files_of_the_run :
  Forall (fun r => exists D GF,
            r = (Options, SourceFile, GCNO, D, GF) /\ (D = GCDA \/ D = "-"))
    (renders (events run)).
Proof.
  destruct DumpGCOV; split_run s; read_events;
    cbn [renders flat_map app];
    repeat constructor; eauto 6.
Qed.

(** X6. What gcov.cpp itself sends to [errs()] in a run is, in this
    order: at most one line, of five kinds (the two load errors, the
    rejected notes, the wrong header and the rejected data); and then,
    under --dump and only when the renderer is called, the dump of the
    graph that is rendered.  Without --dump, or when the renderer is not
    called, the line is all there is. *)
Theorem errs_output_of_a_run :
  errs_writes (events run) =
    (map inl (diagnostics (events run)) ++
     map inr (if DumpGCOV then rendered_graphs (events run) else []))%list
  /\ (diagnostics (events run) = []
      \/ (exists EC,
            diagnostics (events run) = [GCNO ++ ": " ++ message EC ++ endl])
      \/ diagnostics (events run) = ["Invalid .gcno File!" ++ endl]
      \/ (exists EC,
            diagnostics (events run) = [GCDA ++ ": " ++ message EC ++ endl])
      \/ diagnostics (events run) = [GCDA ++ ":not a gcov data file" ++ endl]
      \/ diagnostics (events run) = ["Invalid .gcda File!" ++ endl]).
Proof.
  destruct DumpGCOV; split_run s; (split;
    [ unfold rendered_graphs; concrete_events; reflexivity
    | read_events; cbn [diagnostics flat_map app]; eauto 8 ]).
Qed.

(** X7. The data file is loaded exactly when the notes file loaded and the
    notes reader accepted it. *)
Theorem data_loaded_iff_notes_accepted :
  loads (events run) = [GCNO; GCDA] <->
  exists notes s1,
    getFileOrSTDIN GCNO false false s = (EO_value notes, s1)
    /\ fst (readGCNO GCOVFile_new (GCOVBuffer_new notes)) = true.
Proof.
  destruct DumpGCOV; split_run s; read_events;
    cbn [loads flat_map app fst]; split.
  all: try (intros Hl; discriminate Hl).
  all: try (intros _; exists notes, s1; split; [reflexivity |];
            rewrite Hnotes; reflexivity).
  all: intros (notes' & s1' & Heq & Hacc);
    try discriminate Heq; injection Heq as <- <-;
    rewrite Hnotes in Hacc; cbn [fst] in Hacc; try discriminate Hacc;
    reflexivity.
Qed.

(** X8. --dump changes nothing but the dump: the run with it leaves the same
    host and, the print apart, has the same events as the run without it;
    the graph is printed once when the renderer is called and not at all
    otherwise. *)
Theorem dump_only_adds_the_print :
  let dumped :=
    reportCoverage SourceFile ObjectDir InputGCNO InputGCDA true Options s in
  let plain_run :=
    reportCoverage SourceFile ObjectDir InputGCNO InputGCDA false Options s in
  host dumped = host plain_run
  /\ without_prints (events dumped) = events plain_run
  /\ prints (events plain_run) = []
  /\ prints (events dumped) =
     map (fun r => match r with (_, _, _, _, GF) => GF end)
       (renders (events dumped)).
Proof.
  cbv zeta. split_run s; concrete_events;
    cbn [without_prints prints renders filter flat_map map app];
    repeat split.
Qed.

End RunFacts.

(** ** All the runs of the driver *)

Section DriverRuns.
Context {P : PathLib} {G : GCOVLib} {H : Host G}.
Variable cl : CommandLine.

Lemma events_gcovMain (s : Sys) :
  events (gcovMain cl s) = events (for_each (SourceFiles cl) (runOne cl) s).
Proof. now rewrite gcovMain_run. Qed.

Lemma events_for_each_cons (x : string) (xs : list string) (s : Sys) :
  events (for_each (x :: xs) (runOne cl) s) =
  (events (runOne cl x s) ++
   events (for_each xs (runOne cl) (host (runOne cl x s))))%list.
Proof. now rewrite for_each_cons. Qed.

Lemma rendered_sources_app (a b : list Event) :
  rendered_sources (a ++ b) = (rendered_sources a ++ rendered_sources b)%list.
Proof. unfold rendered_sources. now rewrite renders_app, map_app. Qed.

(** One run renders its own source file or nothing. *)
Lemma runOne_rendered_sources (x : string) (s : Sys) :
  rendered_sources (events (runOne cl x s)) = []
  \/ rendered_sources (events (runOne cl x s)) = [x].
Proof.
  unfold rendered_sources, runOne.
  destruct (reportCoverage_renders x (ObjectDir cl) (InputGCNO cl)
              (InputGCDA cl) (DumpGCOV cl) (Options_of cl) s)
    as [-> | (D & GF & ->)]; [now left | now right].
Qed.

(** X15. The source files rendered are source files of the command line, each at
    most once and in the order of the command line, and every call of the
    renderer is given the options of the command line. *)
Theorem reports_follow_the_command_line (s : Sys) :
  subseq (rendered_sources (events (gcovMain cl s))) (SourceFiles cl)
  /\ Forall (fun r => match r with (Opts, _, _, _, _) => Opts = Options_of cl end)
       (renders (events (gcovMain cl s))).
Proof.
  rewrite events_gcovMain.
  generalize (SourceFiles cl). intros xs. revert s.
  induction xs as [| x xs IH]; intros s.
  - split; constructor.
  - rewrite events_for_each_cons, rendered_sources_app, renders_app.
    destruct (IH (host (runOne cl x s))) as (IHsub & IHopt). split.
    + destruct (runOne_rendered_sources x s) as [-> | ->]; cbn [app];
        now constructor.
    + apply Forall_app. split; [| exact IHopt].
      unfold runOne.
      destruct (reportCoverage_renders x (ObjectDir cl) (InputGCNO cl)
                  (InputGCDA cl) (DumpGCOV cl) (Options_of cl) s)
        as [-> | (D & GF & ->)]; repeat constructor.
Qed.

(** X16. Over a whole command line of [n] source files: between [n] and [2 n]
    files are loaded, at most [n] lines are written, the renderer is called
    at most [n] times, and lines and renderer calls together are at least
    [n], so every source file leaves a line or a report. *)
Theorem gcovMain_counts (s : Sys) :
  let es := events (gcovMain cl s) in
  let n := length (SourceFiles cl) in
  n <= length (loads es) <= 2 * n
  /\ length (diagnostics es) <= n
  /\ length (renders es) <= n
  /\ n <= length (diagnostics es) + length (renders es).
Proof.
  cbv zeta. rewrite events_gcovMain.
  generalize (SourceFiles cl). intros xs. revert s.
  induction xs as [| x xs IH]; intros s.
  - cbn. lia.
  - rewrite events_for_each_cons.
    rewrite loads_app, diagnostics_app, renders_app, !length_app.
    specialize (IH (host (runOne cl x s))).
    pose proof (reportCoverage_loads x (ObjectDir cl) (InputGCNO cl)
                  (InputGCDA cl) (DumpGCOV cl) (Options_of cl) s) as Hloads.
    pose proof (reportCoverage_renders x (ObjectDir cl) (InputGCNO cl)
                  (InputGCDA cl) (DumpGCOV cl) (Options_of cl) s) as Hrenders.
    pose proof (reportCoverage_line_or_report x (ObjectDir cl) (InputGCNO cl)
                  (InputGCDA cl) (DumpGCOV cl) (Options_of cl) s)
      as (Hlines & Hone).
    fold (runOne cl x) in Hloads, Hrenders, Hlines, Hone.
    assert (Hl : 1 <= length (loads (events (runOne cl x s))) <= 2)
      by (destruct Hloads as [-> | ->]; cbn; lia).
    assert (Hr : length (renders (events (runOne cl x s))) <= 1)
      by (destruct Hrenders as [-> | (D & GF & ->)]; cbn; lia).
    cbn [length]. lia.
Qed.

(** X17. With both --gcno and --gcda given, these two are the only files the
    tool loads, whatever the source files and the object directory. *)
Theorem overrides_are_the_only_files_loaded (s : Sys) :
  InputGCNO cl <> "" -> InputGCDA cl <> "" ->
  Forall (fun name => name = InputGCNO cl \/ name = InputGCDA cl)
    (loads (events (gcovMain cl s))).
Proof.
  intros Hno Hda. rewrite events_gcovMain.
  generalize (SourceFiles cl). intros xs. revert s.
  induction xs as [| x xs IH]; intros s.
  - constructor.
  - rewrite events_for_each_cons, loads_app.
    apply Forall_app. split; [| apply IH].
    pose proof (reportCoverage_loads x (ObjectDir cl) (InputGCNO cl)
                  (InputGCDA cl) (DumpGCOV cl) (Options_of cl) s) as Hloads.
    fold (runOne cl x) in Hloads.
    unfold notesName, dataName, createInputFileName in Hloads.
    apply empty_false_iff in Hno, Hda. rewrite Hno, Hda in Hloads.
    destruct Hloads as [-> | ->];
      repeat (apply Forall_cons || apply Forall_nil); auto.
Qed.

End DriverRuns.

(** * The theorems on the sample host *)

Import Sample.

Lemma createCoverageFileStem_three_way_witness :
  createCoverageFileStem "src/a.c" "" disk0 = ("src/a", disk0, [])
  /\ ("obj" <> "" /\ is_directory "obj" disk0 = true
      /\ createCoverageFileStem "src/a.c" "obj" disk0 =
         ("obj/a", disk0, [ev_is_directory "obj"])
      /\ createCoverageFileStem "lib/a.cpp" "obj" disk0 =
         createCoverageFileStem "src/a.c" "obj" disk0)
  /\ ("build/x.o" <> "" /\ is_directory "build/x.o" disk0 = false
      /\ createCoverageFileStem "src/a.c" "build/x.o" disk0 =
         ("build/x", disk0, [ev_is_directory "build/x.o"])
      /\ createCoverageFileStem "lib/b.c" "build/x.o" disk0 =
         createCoverageFileStem "src/a.c" "build/x.o" disk0).
Proof.
  assert (Hobj : "obj" <> "") by discriminate.
  assert (Hfile : "build/x.o" <> "") by discriminate.
  split; [| split].
  - exact (proj1 (@createCoverageFileStem_three_way posix reader machine
                    "src/a.c" "" disk0) eq_refl).
  - destruct (proj1 (proj2 (@createCoverageFileStem_three_way posix reader
                              machine "src/a.c" "obj" disk0)) Hobj eq_refl)
      as [Hstem Hsame].
    exact (conj Hobj (conj eq_refl (conj Hstem (Hsame "lib/a.cpp" eq_refl)))).
  - destruct (proj2 (proj2 (@createCoverageFileStem_three_way posix reader
                              machine "src/a.c" "build/x.o" disk0))
                Hfile eq_refl) as [Hstem Hsame].
    exact (conj Hfile (conj eq_refl (conj Hstem (Hsame "lib/b.c")))).
Defined.

Lemma createInputFileName_override_or_default_witness :
  "x.gcda" <> ""
  /\ createInputFileName "src/a" "x.gcda" "da" = "x.gcda"
  /\ createInputFileName "src/a" "" "no" = "src/a.gcno"
  /\ createInputFileName "src/a" "" "da" = "src/a.gcda".
Proof.
  assert (Hgiven : "x.gcda" <> "") by discriminate.
  destruct (createInputFileName_override_or_default "src/a" "x.gcda")
    as (Hoverride & _ & _).
  destruct (createInputFileName_override_or_default "src/a" "")
    as (_ & Hno & Hda).
  exact (conj Hgiven (conj (Hoverride Hgiven "da") (conj Hno Hda))).
Defined.

(** A complete run: src/a.c has a notes file and a data file, both well
    formed. *)
Example run_with_notes_and_data :
  reportCoverage "src/a.c" "" "" "" true plain disk0 =
  (tt, gcovOneInput plain "src/a.c" "src/a.gcno" "src/a.gcda"
         (bytes "A", bytes "1") disk0,
   [ev_getFileOrSTDIN "src/a.gcno";
    ev_readGCNO GCOVFile_new (bytes "oncgA");
    ev_getFileOrSTDIN "src/a.gcda";
    ev_readGCDAFormat (bytes "adcg1");
    ev_readGCDA (bytes "A", []) (bytes "1");
    ev_print (bytes "A", bytes "1");
    ev_gcovOneInput plain "src/a.c" "src/a.gcno" "src/a.gcda"
      (bytes "A", bytes "1")]).
Proof. reflexivity. Qed.

(** With -o obj the files are looked for in obj, under the source's base
    name. *)
Example run_with_object_directory :
  loads (events (reportCoverage "src/a.c" "obj" "" "" false plain disk0)) =
  ["obj/a.gcno"; "obj/a.gcda"].
Proof. reflexivity. Qed.

(** src/h.c has no notes file. *)
Lemma notes_load_error_abandons_file_witness :
  getFileOrSTDIN "src/h.gcno" false false disk0 = (EO_error ENOENT eq_refl, disk0)
  /\ reportCoverage "src/h.c" "" "" "" true plain disk0 =
     (tt, disk0,
      [ev_getFileOrSTDIN "src/h.gcno";
       ev_errs ("src/h.gcno: No such file or directory" ++ endl)])
  /\ renders (events (reportCoverage "src/h.c" "" "" "" true plain disk0)) = [].
Proof.
  destruct (@notes_load_error_abandons_file posix reader machine
              "src/h.c" "" "" "" true plain disk0 disk0 ENOENT eq_refl eq_refl)
    as (Hrun & _ & _ & _ & _ & Hrender).
  exact (conj eq_refl (conj Hrun Hrender)).
Defined.

(** src/e.gcno is not a notes file. *)
Lemma rejected_notes_produce_no_report_witness :
  getFileOrSTDIN "src/e.gcno" false false disk0 = (EO_value (bytes "text"), disk0)
  /\ readGCNO GCOVFile_new (GCOVBuffer_new (bytes "text")) = (false, GCOVFile_new)
  /\ diagnostics (events (reportCoverage "src/e.c" "" "" "" true plain disk0)) =
     ["Invalid .gcno File!" ++ endl]
  /\ loads (events (reportCoverage "src/e.c" "" "" "" true plain disk0)) =
     ["src/e.gcno"]
  /\ renders (events (reportCoverage "src/e.c" "" "" "" true plain disk0)) = [].
Proof.
  destruct (@rejected_notes_produce_no_report posix reader machine
              "src/e.c" "" "" "" true plain disk0 disk0 (bytes "text") eq_refl
              GCOVFile_new eq_refl)
    as (_ & Hline & Hloads & _ & Hrender).
  exact (conj eq_refl (conj eq_refl (conj Hline (conj Hloads Hrender)))).
Defined.

(** src/b.c has notes and no data file. *)
Lemma missing_data_file_falls_back_witness :
  getFileOrSTDIN "src/b.gcno" false false disk0 = (EO_value (bytes "oncgB"), disk0)
  /\ readGCNO GCOVFile_new (GCOVBuffer_new (bytes "oncgB")) =
     (true, (bytes "B", []))
  /\ getFileOrSTDIN "src/b.gcda" false false disk0 = (EO_error ENOENT eq_refl, disk0)
  /\ equivalent ENOENT no_such_file_or_directory = true
  /\ diagnostics (events (reportCoverage "src/b.c" "" "" "" true plain disk0)) = []
  /\ renders (events (reportCoverage "src/b.c" "" "" "" true plain disk0)) =
     [(plain, "src/b.c", "src/b.gcno", "-", (bytes "B", []))].
Proof.
  destruct (@missing_data_file_falls_back posix reader machine
              "src/b.c" "" "" "" true plain disk0 disk0 (bytes "oncgB") eq_refl
              (bytes "B", []) eq_refl disk0 ENOENT eq_refl eq_refl eq_refl)
    as (_ & Hquiet & _ & Hrender).
  exact (conj eq_refl (conj eq_refl (conj eq_refl (conj eq_refl
           (conj Hquiet Hrender))))).
Defined.

(** src/f.gcda exists and cannot be read. *)
Lemma data_load_error_abandons_file_witness :
  getFileOrSTDIN "src/f.gcno" false false disk0 = (EO_value (bytes "oncgF"), disk0)
  /\ readGCNO GCOVFile_new (GCOVBuffer_new (bytes "oncgF")) =
     (true, (bytes "F", []))
  /\ getFileOrSTDIN "src/f.gcda" false false disk0 = (EO_error EACCES eq_refl, disk0)
  /\ equivalent EACCES no_such_file_or_directory = false
  /\ diagnostics (events (reportCoverage "src/f.c" "" "" "" true plain disk0)) =
     ["src/f.gcda: Permission denied" ++ endl]
  /\ renders (events (reportCoverage "src/f.c" "" "" "" true plain disk0)) = [].
Proof.
  destruct (@data_load_error_abandons_file posix reader machine
              "src/f.c" "" "" "" true plain disk0 disk0 (bytes "oncgF") eq_refl
              (bytes "F", []) eq_refl disk0 EACCES eq_refl eq_refl eq_refl)
    as (_ & Hline & _ & Hrender).
  exact (conj eq_refl (conj eq_refl (conj eq_refl (conj eq_refl
           (conj Hline Hrender))))).
Defined.

(** src/c.gcda has a wrong magic; src/d.gcda has the magic and no record. *)
Lemma malformed_data_still_reports_witness :
  (readGCDAFormat (GCOVBuffer_new (bytes "junk")) = (false, bytes "junk")
   /\ diagnostics (events (reportCoverage "src/c.c" "" "" "" false plain disk0)) =
      ["src/c.gcda:not a gcov data file" ++ endl]
   /\ data_reads (events (reportCoverage "src/c.c" "" "" "" false plain disk0)) =
      [ev_readGCDAFormat (bytes "junk")]
   /\ renders (events (reportCoverage "src/c.c" "" "" "" false plain disk0)) =
      [(plain, "src/c.c", "src/c.gcno", "src/c.gcda", (bytes "C", []))])
  /\ (readGCDAFormat (GCOVBuffer_new (bytes "adcg")) = (true, [])
      /\ readGCDA (bytes "D", []) [] = (false, (bytes "D", []))
      /\ diagnostics (events (reportCoverage "src/d.c" "" "" "" false plain disk0)) =
         ["Invalid .gcda File!" ++ endl]
      /\ renders (events (reportCoverage "src/d.c" "" "" "" false plain disk0)) =
         [(plain, "src/d.c", "src/d.gcno", "src/d.gcda", (bytes "D", []))]).
Proof.
  destruct (proj1 (@malformed_data_still_reports posix reader machine
                     "src/c.c" "" "" "" false plain disk0 disk0
                     (bytes "oncgC") eq_refl (bytes "C", []) eq_refl
                     disk0 (bytes "junk") eq_refl) (bytes "junk") eq_refl)
    as (_ & Hline & Hreads & Hrender).
  destruct (proj2 (@malformed_data_still_reports posix reader machine
                     "src/d.c" "" "" "" false plain disk0 disk0
                     (bytes "oncgD") eq_refl (bytes "D", []) eq_refl
                     disk0 (bytes "adcg") eq_refl) [] (bytes "D", [])
              eq_refl eq_refl)
    as (_ & Hline' & Hrender').
  exact (conj (conj eq_refl (conj Hline (conj Hreads Hrender)))
              (conj eq_refl (conj eq_refl (conj Hline' Hrender')))).
Defined.

(** src/b.c with --gcda=run/none.gcda, a file that does not exist. *)
Lemma missing_explicit_data_file_falls_back_witness :
  "run/none.gcda" <> ""
  /\ getFileOrSTDIN "run/none.gcda" false false disk0 =
     (EO_error ENOENT eq_refl, disk0)
  /\ equivalent ENOENT no_such_file_or_directory = true
  /\ reportCoverage "src/b.c" "" "" "run/none.gcda" false plain disk0 =
     (tt, gcovOneInput plain "src/b.c" "src/b.gcno" "-" (bytes "B", []) disk0,
      [ev_getFileOrSTDIN "src/b.gcno";
       ev_readGCNO GCOVFile_new (bytes "oncgB");
       ev_getFileOrSTDIN "run/none.gcda";
       ev_gcovOneInput plain "src/b.c" "src/b.gcno" "-" (bytes "B", [])]).
Proof.
  assert (Hgiven : "run/none.gcda" <> "") by discriminate.
  destruct (@missing_explicit_data_file_falls_back posix reader machine
              "src/b.c" "" "" "run/none.gcda" false plain disk0 disk0
              (bytes "oncgB") eq_refl (bytes "B", []) eq_refl
              disk0 ENOENT eq_refl Hgiven eq_refl eq_refl)
    as (_ & Hrun & _ & _).
  exact (conj Hgiven (conj eq_refl (conj eq_refl Hrun))).
Defined.

Lemma gcovMain_runs_every_file_and_exits_0_witness :
  result (gcovMain three_files disk0) = 0%Z
  /\ (renders (events (runOne three_files "src/h.c" disk0)) = []
      /\ host (runOne three_files "src/h.c" disk0) = disk0)
  /\ (SourceFiles three_files = ([] ++ "src/h.c" :: ["src/b.c"; "src/a.c"])%list
      /\ events (gcovMain three_files disk0) =
         (events (runOne three_files "src/h.c" disk0) ++
          events (for_each ["src/b.c"; "src/a.c"] (runOne three_files) disk0))%list
      /\ reports (host (gcovMain three_files disk0)) =
         [("src/b.c", "src/b.gcno", "-"); ("src/a.c", "src/a.gcno", "src/a.gcda")]).
Proof.
  destruct (@gcovMain_runs_every_file_and_exits_0 posix reader machine
              three_files disk0)
    as (Hexit & _ & Hfailed & Hskip).
  destruct (Hskip [] "src/h.c" ["src/b.c"; "src/a.c"] eq_refl eq_refl)
    as (Hevents & Hhost).
  split; [exact Hexit |]. split.
  - exact (conj eq_refl (Hfailed "src/h.c" disk0 eq_refl)).
  - split; [reflexivity |]. split; [exact Hevents |].
    rewrite Hhost. reflexivity.
Defined.

(** ** The further properties on the sample host *)


Lemma inferred_names_differ_witness :
  notesName "src/a.c" "obj" "" disk0 <> dataName "src/a.c" "obj" "" disk0.
Proof.
  exact (@inferred_names_differ posix reader machine "src/a.c" "obj" "" ""
           disk0 eq_refl eq_refl).
Defined.

(** src/a.c has a notes file and a data file, both well formed. *)
Lemma accepted_notes_and_data_report_witness :
  getFileOrSTDIN "src/a.gcno" false false disk0 = (EO_value (bytes "oncgA"), disk0)
  /\ readGCNO GCOVFile_new (GCOVBuffer_new (bytes "oncgA")) =
     (true, (bytes "A", []))
  /\ getFileOrSTDIN "src/a.gcda" false false disk0 = (EO_value (bytes "adcg1"), disk0)
  /\ readGCDAFormat (GCOVBuffer_new (bytes "adcg1")) = (true, bytes "1")
  /\ readGCDA (bytes "A", []) (bytes "1") = (true, (bytes "A", bytes "1"))
  /\ diagnostics (events (reportCoverage "src/a.c" "" "" "" false plain disk0)) = []
  /\ renders (events (reportCoverage "src/a.c" "" "" "" false plain disk0)) =
     [(plain, "src/a.c", "src/a.gcno", "src/a.gcda", (bytes "A", bytes "1"))].
Proof.
  destruct (@accepted_notes_and_data_report posix reader machine
              "src/a.c" "" "" "" false plain disk0 disk0 disk0
              (bytes "oncgA") (bytes "adcg1") (bytes "A", [])
              (bytes "A", bytes "1") (bytes "1")
              eq_refl eq_refl eq_refl eq_refl eq_refl)
    as (_ & Hquiet & Hrender).
  exact (conj eq_refl (conj eq_refl (conj eq_refl (conj eq_refl (conj eq_refl
           (conj Hquiet Hrender)))))).
Defined.

(** src/b.c has notes only: nothing is written, and the report is made. *)
Lemma quiet_run_reports_witness :
  diagnostics (events (reportCoverage "src/b.c" "" "" "" false plain disk0)) = []
  /\ length (renders (events (reportCoverage "src/b.c" "" "" "" false plain
                                disk0))) = 1.
Proof.
  exact (conj eq_refl
           (@quiet_run_reports posix reader machine "src/b.c" "" "" "" false
              plain disk0 eq_refl)).
Defined.

(** The last event of the run on src/c.c, whose data file has a wrong
    magic, is the call of the renderer. *)
Lemma run_shape_witness :
  renders (events (reportCoverage "src/c.c" "" "" "" true plain disk0)) <> []
  /\ exists Opts Src N D GF,
       hd_error (rev (events (reportCoverage "src/c.c" "" "" "" true plain
                                disk0))) =
       Some (ev_gcovOneInput Opts Src N D GF).
Proof.
  assert (Hr : renders (events (reportCoverage "src/c.c" "" "" "" true plain
                                  disk0)) <> []) by discriminate.
  destruct (@run_shape posix reader machine "src/c.c" "" "" "" true plain
              disk0) as (_ & _ & _ & _ & Hlast).
  exact (conj Hr (Hlast Hr)).
Defined.

(** A buffer with a wrong magic, and one with the magic and no record. *)
Lemma validateGCDAFile_answer_witness :
  (fst (readGCDAFormat (GCOVBuffer_new (bytes "junk"))) = false
   /\ result (validateGCDAFile (bytes "C", []) "src/c.gcda" (bytes "junk")
                disk0) = (bytes "C", []))
  /\ (fst (readGCDAFormat (GCOVBuffer_new (bytes "adcg"))) = true
      /\ result (validateGCDAFile (bytes "D", []) "src/d.gcda" (bytes "adcg")
                   disk0) = (bytes "D", [])).
Proof.
  destruct (@validateGCDAFile_answer reader machine disk0 (bytes "C", [])
              "src/c.gcda" (bytes "junk")) as (_ & Hwrong & _ & _).
  destruct (@validateGCDAFile_answer reader machine disk0 (bytes "D", [])
              "src/d.gcda" (bytes "adcg")) as (_ & _ & Hread & _).
  exact (conj (conj eq_refl (proj1 (Hwrong eq_refl)))
              (conj eq_refl (Hread eq_refl))).
Defined.

(** Two source files with --gcno=run/x.gcno --gcda=run/x.gcda. *)
Lemma overrides_are_the_only_files_loaded_witness :
  InputGCNO (cmd ["src/a.c"; "src/b.c"] "obj" "run/x.gcno" "run/x.gcda" false) <> ""
  /\ InputGCDA (cmd ["src/a.c"; "src/b.c"] "obj" "run/x.gcno" "run/x.gcda" false) <> ""
  /\ Forall (fun name => name = "run/x.gcno" \/ name = "run/x.gcda")
       (loads (events (gcovMain (cmd ["src/a.c"; "src/b.c"] "obj" "run/x.gcno"
                                   "run/x.gcda" false) disk0))).
Proof.
  assert (Hno : InputGCNO (cmd ["src/a.c"; "src/b.c"] "obj" "run/x.gcno"
                             "run/x.gcda" false) <> "") by discriminate.
  assert (Hda : InputGCDA (cmd ["src/a.c"; "src/b.c"] "obj" "run/x.gcno"
                             "run/x.gcda" false) <> "") by discriminate.
  exact (conj Hno (conj Hda
           (@overrides_are_the_only_files_loaded posix reader machine
              (cmd ["src/a.c"; "src/b.c"] "obj" "run/x.gcno" "run/x.gcda" false)
              disk0 Hno Hda))).
Defined.

(** src/a.c is read into a new graph and rendered with its counts; src/b.c,
    which has no data file, is read into a new graph again and rendered
    with no counts. *)
Lemma every_source_file_gets_a_new_graph_witness :
  notes_reads (events (gcovMain two_files disk0)) =
    [ev_readGCNO GCOVFile_new (bytes "oncgA");
     ev_readGCNO GCOVFile_new (bytes "oncgB")]
  /\ rendered_graphs (events (gcovMain two_files disk0)) =
     [(bytes "A", bytes "1"); (bytes "B", [])].
Proof.
  destruct (@every_source_file_gets_a_new_graph posix reader machine
              two_files disk0) as (Hreads & Hgraphs & _).
  exact (conj Hreads Hgraphs).
Defined.

(** With --dump the run on src/c.c, whose data file has a wrong magic,
    sends its line and then the dump of the graph it renders. *)
Lemma errs_output_of_a_run_witness :
  errs_writes (events (reportCoverage "src/c.c" "" "" "" true plain disk0)) =
  [inl ("src/c.gcda:not a gcov data file" ++ endl); inr (bytes "C", [])].
Proof.
  exact (proj1 (@errs_output_of_a_run posix reader machine "src/c.c" "" "" ""
                  true plain disk0)).
Defined.
